(** * VerifyForge TypeScript SDK: the request pipeline and its error taxonomy

    A shallow embedding of [src/errors.ts] (the error classes) and
    [src/client.ts] (the [VerifyForge] class: constructor, [makeRequest],
    [validate], [validateBulk] and the two accessors).

    JavaScript values are a first-order datatype, exceptions are an explicit
    completion ([Returns] / [Throws]), and the one effect of the client, the
    call to [fetch], is threaded through a small state-and-exception monad
    whose state records every request handed to the transport. *)

From Stdlib Require Import String Ascii List ZArith Bool Lia DecimalString.
Import ListNotations.

Local Open Scope string_scope.
Local Open Scope list_scope.
Local Open Scope Z_scope.

Set Warnings "-register-all".

(** ** JavaScript values *)

Module Js.

(** A JavaScript number.  The client only ever compares numbers with
    constants, tests them for truthiness and prints them, so a number is
    modelled by its integer value; [NaN] is kept because it is falsy.
    [Fin z] stands for an integer of magnitude below 10^21, which
    JavaScript prints in plain decimal; larger magnitudes (printed in
    exponent form) and fractions are outside the model. *)
Inductive number : Type :=
| Fin (z : Z)
| NaN.

(** The values [JSON.parse] can produce, plus [undefined] and [NaN].  An
    object is the ordered list of its own properties, keys distinct. *)
Inductive value : Type :=
| Undefined
| Null
| Bool (b : bool)
| Num (n : number)
| Str (s : string)
| Arr (elems : list value)
| Obj (fields : list (string * value)).

(** ToBoolean: the falsy values are [undefined], [null], [false], [0],
    [NaN] and the empty string. *)
Definition truthy (v : value) : bool :=
  match v with
  | Undefined | Null => false
  | Bool b => b
  | Num (Fin z) => negb (z =? 0)
  | Num NaN => false
  | Str s => negb (String.eqb s "")
  | Arr _ | Obj _ => true
  end.

(** [a || b] *)
Definition or (a b : value) : value := if truthy a then a else b.

(** [typeof v] *)
Definition typeof (v : value) : string :=
  match v with
  | Undefined => "undefined"
  | Null => "object"
  | Bool _ => "boolean"
  | Num _ => "number"
  | Str _ => "string"
  | Arr _ | Obj _ => "object"
  end.

(** [Array.isArray(v)] *)
Definition isArray (v : value) : bool :=
  match v with Arr _ => true | _ => false end.

(** Number::toString, on the numbers of the model: plain decimal digits. *)
Definition number_to_string (n : number) : string :=
  match n with
  | Fin z => NilZero.string_of_int (Z.to_int z)
  | NaN => "NaN"
  end.

(** Whether ToString completes on [v].  A primitive always converts.  An
    object converts through its [toString] method: a decoded object that
    has an own property named [toString] hides the inherited method
    behind a value that is not callable, and the conversion throws a
    [TypeError]; without such a property the inherited method answers.
    An array converts when each of its elements other than [null] and
    [undefined] does. *)
Fixpoint stringifiable (v : value) : bool :=
  match v with
  | Arr elems =>
      let element (x : value) : bool := stringifiable x in
      List.forallb element elems
  | Obj fields =>
      negb (List.existsb (fun kv => String.eqb (fst kv) "toString") fields)
  | _ => true
  end.

(** ToString, as [String(v)] and the [Error] constructor apply it: the
    string it yields on a value it completes on (see [stringifiable]).
    An array prints its elements separated by commas, [null] and
    [undefined] elements as nothing; an object prints through the
    inherited method, as [[object Object]]. *)
Fixpoint to_string (v : value) : string :=
  match v with
  | Undefined => "undefined"
  | Null => "null"
  | Bool true => "true"
  | Bool false => "false"
  | Num n => number_to_string n
  | Str s => s
  | Arr elems =>
      let element (x : value) : string :=
        match x with
        | Undefined | Null => ""
        | _ => to_string x
        end in
      String.concat "," (List.map element elems)
  | Obj _ => "[object Object]"
  end.

Fixpoint lookup (key : string) (fields : list (string * value)) : value :=
  match fields with
  | [] => Undefined
  | (k, v) :: rest => if String.eqb k key then v else lookup key rest
  end.

(** The classes of the built-in errors the client tells apart: only
    [instanceof TypeError] is ever tested, the others are all plain
    [instanceof Error]. *)
Inductive error_class : Type :=
| ClsError
| ClsTypeError
| ClsSyntaxError
| ClsDOMException.

Definition instanceof_TypeError (c : error_class) : bool :=
  match c with ClsTypeError => true | _ => false end.

End Js.

(** ** src/errors.ts *)

Inductive ErrorKind : Type :=
| KVerifyForgeError
| KAuthenticationError
| KRateLimitError
| KInsufficientCreditsError
| KValidationError
| KAPIError
| KNetworkError.

(** An instance of [VerifyForgeError] or of one of its six subclasses:
    [kind] is the class the object was constructed from, the other fields
    are the object's own properties. *)
Record VerifyForgeError : Type := mkVerifyForgeError {
  kind : ErrorKind;
  name : string;
  message : string;
  statusCode : option Z;
  errorCode : option string;
  details : Js.value;
  docsUrl : string
}.

(** The [options] argument of the base constructor. *)
Record ErrorOptions : Type := mkErrorOptions {
  opt_statusCode : option Z;
  opt_errorCode : option string;
  opt_details : Js.value;
  opt_docsUrl : option string
}.

(** [super(message)] of the built-in [Error]: the [message] property is
    ToString of the argument unless the argument is [undefined]. *)
Definition Error_message (m : Js.value) : string :=
  match m with
  | Js.Undefined => ""
  | _ => Js.to_string m
  end.

Definition default_docsUrl : string := "https://verifyforge.com/api-docs".

(** [new VerifyForgeError(message, options)] (errors.ts, lines 14-34). *)
Definition VerifyForgeError_new (m : Js.value) (options : option ErrorOptions)
  : VerifyForgeError :=
  {| kind := KVerifyForgeError;
     name := "VerifyForgeError";
     message := Error_message m;
     statusCode := match options with Some o => opt_statusCode o | None => None end;
     errorCode := match options with Some o => opt_errorCode o | None => None end;
     details := match options with Some o => opt_details o | None => Js.Undefined end;
     docsUrl :=
       match options with
       | Some {| opt_docsUrl := Some u |} =>
           if String.eqb u "" then default_docsUrl else u
       | _ => default_docsUrl
       end |}.

(** What a subclass constructor adds after [super(...)]: the object is an
    instance of the subclass and [this.name] is overwritten. *)
Definition subclass (k : ErrorKind) (n : string) (e : VerifyForgeError)
  : VerifyForgeError :=
  {| kind := k; name := n; message := message e; statusCode := statusCode e;
     errorCode := errorCode e; details := details e; docsUrl := docsUrl e |}.

(** A default parameter value applies when the argument is [undefined]. *)
Definition default_param (arg dflt : Js.value) : Js.value :=
  match arg with Js.Undefined => dflt | _ => arg end.

Definition AuthenticationError_new (m : Js.value) : VerifyForgeError :=
  let m := default_param m (Js.Str "Invalid API key") in
  subclass KAuthenticationError "AuthenticationError"
    (VerifyForgeError_new m
       (Some {| opt_statusCode := Some 401;
                opt_errorCode := Some "AUTHENTICATION_ERROR";
                opt_details := Js.Undefined; opt_docsUrl := None |})).

Definition RateLimitError_new (m : Js.value) : VerifyForgeError :=
  let m := default_param m (Js.Str "Rate limit exceeded") in
  subclass KRateLimitError "RateLimitError"
    (VerifyForgeError_new m
       (Some {| opt_statusCode := Some 429;
                opt_errorCode := Some "RATE_LIMIT_ERROR";
                opt_details := Js.Undefined; opt_docsUrl := None |})).

Definition InsufficientCreditsError_new (m : Js.value) : VerifyForgeError :=
  let m := default_param m (Js.Str "Insufficient credits") in
  subclass KInsufficientCreditsError "InsufficientCreditsError"
    (VerifyForgeError_new m
       (Some {| opt_statusCode := Some 402;
                opt_errorCode := Some "INSUFFICIENT_CREDITS";
                opt_details := Js.Undefined; opt_docsUrl := None |})).

Definition ValidationError_new (m : Js.value) (d : Js.value) : VerifyForgeError :=
  subclass KValidationError "ValidationError"
    (VerifyForgeError_new m
       (Some {| opt_statusCode := Some 400;
                opt_errorCode := Some "VALIDATION_ERROR";
                opt_details := d; opt_docsUrl := None |})).

(** [statusCode: number = 500]: [None] is the argument left out. *)
Definition APIError_new (m : Js.value) (status : option Z) : VerifyForgeError :=
  let status := match status with Some s => s | None => 500 end in
  subclass KAPIError "APIError"
    (VerifyForgeError_new m
       (Some {| opt_statusCode := Some status;
                opt_errorCode := Some "API_ERROR";
                opt_details := Js.Undefined; opt_docsUrl := None |})).

Definition NetworkError_new (m : Js.value) : VerifyForgeError :=
  subclass KNetworkError "NetworkError"
    (VerifyForgeError_new m
       (Some {| opt_statusCode := None;
                opt_errorCode := Some "NETWORK_ERROR";
                opt_details := Js.Undefined; opt_docsUrl := None |})).

(** ** Exceptions and the transport *)

(** Anything a [throw] or a rejected promise can carry: an instance of the
    SDK's own hierarchy, an instance of a built-in error class with its
    [name] and [message], or a value that is not an [Error] at all. *)
Inductive Thrown : Type :=
| ThrowVF (e : VerifyForgeError)
| ThrowError (cls : Js.error_class) (name message : string)
| ThrowValue (v : Js.value).

Inductive Completion (A : Type) : Type :=
| Returns (a : A)
| Throws (e : Thrown).
Arguments Returns {A} a.
Arguments Throws {A} e.

Inductive Method : Type := GET | POST.

(** The arguments of the [fetch] call of [makeRequest].  The query of a
    GET request is kept as the entries appended to the [URLSearchParams],
    the body of a POST request as the value handed to [JSON.stringify],
    and the abort signal as the delay of the timer that fires it. *)
Record Request : Type := mkRequest {
  req_url : string;
  req_query : option (list (string * string));
  req_method : Method;
  req_headers : list (string * string);
  req_body : option Js.value;
  req_signal : Js.number
}.

(** What [response.json()] does with the body: it parses, it fails to parse
    (a [SyntaxError]), or the body cannot be read (a [TypeError]). *)
Inductive Body : Type :=
| BodyJson (v : Js.value)
| BodyMalformed (why : string)
| BodyUnreadable (why : string).

Record Response : Type := mkResponse {
  status : Z;
  body : Body
}.

(** [response.ok]: the status is in the range 200-299. *)
Definition ok (r : Response) : bool :=
  (200 <=? status r) && (status r <=? 299).

(** The outcome of one [fetch]: the promise resolves with a response or
    rejects.  The abort that the timer of [makeRequest] triggers is a
    rejection with a [DOMException] named [AbortError]. *)
Inductive FetchOutcome : Type :=
| FetchResolves (r : Response)
| FetchRejects (e : Thrown).

Definition AbortError : Thrown :=
  ThrowError Js.ClsDOMException "AbortError" "This operation was aborted".

(** The world outside the client: how the transport answers each request,
    and the requests issued so far, oldest first. *)
Record World : Type := mkWorld {
  transport : Request -> FetchOutcome;
  issued : list Request
}.

(** ** The monad of asynchronous code *)

Definition Async (A : Type) : Type := World -> Completion A * World.

Definition ret {A} (a : A) : Async A := fun w => (Returns a, w).

Definition throw {A} (e : Thrown) : Async A := fun w => (Throws e, w).

Definition bind {A B} (c : Async A) (k : A -> Async B) : Async B :=
  fun w =>
    match c w with
    | (Returns a, w') => k a w'
    | (Throws e, w') => (Throws e, w')
    end.

(** [try { c } catch (error) { h error }], and [c.catch(h)] on a promise. *)
Definition try_catch {A} (c : Async A) (h : Thrown -> Async A) : Async A :=
  fun w =>
    match c w with
    | (Returns a, w') => (Returns a, w')
    | (Throws e, w') => h e w'
    end.

Definition lift {A} (c : Completion A) : Async A := fun w => (c, w).

Notation "x <- c ;; k" := (bind c (fun x => k))
  (at level 61, c at next level, right associativity).

(** The world once [req] has been handed to the transport. *)
Definition log_request (req : Request) (w : World) : World :=
  {| transport := transport w; issued := issued w ++ [req] |}.

(** [await fetch(...)]: the request is recorded, the transport answers. *)
Definition fetch (req : Request) : Async Response :=
  fun w =>
    match transport w req with
    | FetchResolves r => (Returns r, log_request req w)
    | FetchRejects e => (Throws e, log_request req w)
    end.

(** [await response.json()] *)
Definition json (r : Response) : Async Js.value :=
  match body r with
  | BodyJson v => ret v
  | BodyMalformed why => throw (ThrowError Js.ClsSyntaxError "SyntaxError" why)
  | BodyUnreadable why => throw (ThrowError Js.ClsTypeError "TypeError" why)
  end.

(** [v.key] for a key that no built-in prototype defines ([error] and
    [details] here): reading a property of [null] or [undefined] throws a
    [TypeError], a primitive or an array has no such property. *)
Definition get_prop (v : Js.value) (key : string) : Completion Js.value :=
  match v with
  | Js.Undefined =>
      Throws (ThrowError Js.ClsTypeError "TypeError"
                ("Cannot read properties of undefined (reading '" ++ key ++ "')"))
  | Js.Null =>
      Throws (ThrowError Js.ClsTypeError "TypeError"
                ("Cannot read properties of null (reading '" ++ key ++ "')"))
  | Js.Obj fields => Returns (Js.lookup key fields)
  | _ => Returns Js.Undefined
  end.

(** [new C(message, ...)] as an expression, for a class [C] of the
    hierarchy: [super(message)] reaches the built-in [Error], which first
    applies ToString to the message; when that throws, no object is
    constructed and the [TypeError] leaves the [new] expression. *)
Definition construct (ctor : Js.value -> VerifyForgeError) (m : Js.value)
  : Completion VerifyForgeError :=
  if Js.stringifiable m then Returns (ctor m)
  else Throws (ThrowError Js.ClsTypeError "TypeError"
                 "Cannot convert object to primitive value").

(** ** src/client.ts *)

(** [VerifyForgeConfig]: [None] is a property left out (or [undefined]). *)
Record VerifyForgeConfig : Type := mkConfig {
  cfg_apiKey : option string;
  cfg_baseUrl : option string;
  cfg_timeout : option Js.number
}.

(** The private fields of a [VerifyForge] instance. *)
Record VerifyForge : Type := mkVerifyForge {
  apiKey : string;
  baseUrl : string;
  timeout : Js.number
}.

(** [s.replace(/\/$/, '')]: the pattern matches one slash at the very end
    of the string, and the first (only) match is removed. *)
Fixpoint replace_trailing_slash (s : string) : string :=
  match s with
  | EmptyString => EmptyString
  | String c rest =>
      match rest with
      | EmptyString => if Ascii.eqb c "/" then EmptyString else s
      | String _ _ => String c (replace_trailing_slash rest)
      end
  end.

Definition default_baseUrl : string := "https://verifyforge.com".
Definition default_timeout : Js.number := Js.Fin 30000.

(** The constructor (client.ts, lines 48-56).  It performs no effect, so
    it is a function to a completion rather than an [Async] computation. *)
Definition constructor (config : VerifyForgeConfig) : Completion VerifyForge :=
  match cfg_apiKey config with
  | None => Throws (ThrowError Js.ClsError "Error" "API key is required")
  | Some key =>
      if String.eqb key "" then
        Throws (ThrowError Js.ClsError "Error" "API key is required")
      else
        Returns
          {| apiKey := key;
             baseUrl :=
               match cfg_baseUrl config with
               | None => default_baseUrl
               | Some b =>
                   let b' := replace_trailing_slash b in
                   if String.eqb b' "" then default_baseUrl else b'
               end;
             timeout :=
               match cfg_timeout config with
               | None => default_timeout
               | Some t => if Js.truthy (Js.Num t) then t else default_timeout
               end |}
  end.

Definition getBaseUrl (self : VerifyForge) : string := baseUrl self.

Definition getTimeout (self : VerifyForge) : Js.number := timeout self.

(** Lines 76-81: the entries appended to the [URLSearchParams]. *)
Fixpoint searchParams (params : list (string * Js.value)) : list (string * string) :=
  match params with
  | [] => []
  | (key, v) :: rest =>
      match v with
      | Js.Undefined | Js.Null => searchParams rest
      | _ => (key, Js.to_string v) :: searchParams rest
      end
  end.

(** Lines 72-99: the request handed to [fetch].  [String(value)] of line
    79 runs before the [try] block; the model takes its result on the
    values it completes on, which covers what the two callers of the
    executor pass (a string for GET, nothing to convert for POST). *)
Definition request (self : VerifyForge) (method : Method) (endpoint : string)
    (params : option (list (string * Js.value))) : Request :=
  {| req_url := (baseUrl self ++ endpoint)%string;
     req_query :=
       match method, params with
       | GET, Some ps => Some (searchParams ps)
       | _, _ => None
       end;
     req_method := method;
     req_headers :=
       [ ("X-API-Key", apiKey self);
         ("Content-Type", "application/json");
         ("Accept", "application/json");
         ("User-Agent", "VerifyForge-TypeScript-SDK/1.0.0") ];
     req_body :=
       match method, params with
       | POST, Some ps => Some (Js.Obj ps)
       | _, _ => None
       end;
     req_signal := timeout self |}.

(** Lines 89-138: the body of the [try] block. *)
Definition makeRequest_try (self : VerifyForge) (method : Method)
    (endpoint : string) (params : option (list (string * Js.value)))
  : Async Js.value :=
  response <- fetch (request self method endpoint params) ;;
  if status response =? 401 then
    throw (ThrowVF (AuthenticationError_new (Js.Str "Invalid API key")))
  else if status response =? 402 then
    throw (ThrowVF (InsufficientCreditsError_new (Js.Str "Insufficient credits")))
  else if status response =? 429 then
    throw (ThrowVF (RateLimitError_new (Js.Str "Rate limit exceeded")))
  else if status response =? 400 then
    errorData <- json response ;;
    error <- lift (get_prop errorData "error") ;;
    dets <- lift (get_prop errorData "details") ;;
    e <- lift (construct (fun m => ValidationError_new m dets)
                 (Js.or error (Js.Str "Validation failed"))) ;;
    throw (ThrowVF e)
  else if 500 <=? status response then
    throw (ThrowVF (APIError_new (Js.Str "Internal server error")
                      (Some (status response))))
  else if negb (ok response) then
    errorData <- try_catch (json response)
                   (fun _ => ret (Js.Obj [("error", Js.Str "Request failed")])) ;;
    error <- lift (get_prop errorData "error") ;;
    e <- lift (construct (fun m => APIError_new m (Some (status response)))
                 (Js.or error (Js.Str "Request failed"))) ;;
    throw (ThrowVF e)
  else
    json response.

(** Lines 139-161: the [catch] clause. *)
Definition makeRequest_catch (error : Thrown) : Async Js.value :=
  match error with
  | ThrowVF e => throw (ThrowVF e)
  | ThrowError cls nm msg =>
      if String.eqb nm "AbortError" then
        throw (ThrowVF (NetworkError_new (Js.Str "Request timed out")))
      else if Js.instanceof_TypeError cls then
        throw (ThrowVF (NetworkError_new (Js.Str "Network request failed")))
      else
        throw (ThrowVF (VerifyForgeError_new (Js.Str msg) None))
  | ThrowValue _ =>
      throw (ThrowVF (VerifyForgeError_new (Js.Str "Unknown error occurred") None))
  end.

(** [makeRequest] (lines 67-162). *)
Definition makeRequest (self : VerifyForge) (method : Method)
    (endpoint : string) (params : option (list (string * Js.value)))
  : Async Js.value :=
  try_catch (makeRequest_try self method endpoint params) makeRequest_catch.

(** [validate] (lines 187-195); the argument is whatever the caller passes
    at run time, whatever the declared type. *)
Definition validate (self : VerifyForge) (email : Js.value) : Async Js.value :=
  if negb (Js.truthy email) || negb (String.eqb (Js.typeof email) "string") then
    throw (ThrowVF (ValidationError_new
                      (Js.Str "Email must be a non-empty string") Js.Undefined))
  else
    makeRequest self GET "/api/validate" (Some [("email", email)]).

(** [emails.length] for an array. *)
Definition array_length (v : Js.value) : Z :=
  match v with
  | Js.Arr elems => Z.of_nat (List.length elems)
  | _ => 0
  end.

(** [validateBulk] (lines 221-238). *)
Definition validateBulk (self : VerifyForge) (emails : Js.value) : Async Js.value :=
  if negb (Js.isArray emails) || (array_length emails =? 0) then
    throw (ThrowVF (ValidationError_new
                      (Js.Str "Emails must be a non-empty array") Js.Undefined))
  else if 100 <? array_length emails then
    throw (ThrowVF (ValidationError_new
                      (Js.Str "Maximum 100 emails allowed per request")
                      (Js.Obj [ ("provided", Js.Num (Js.Fin (array_length emails)));
                                ("maximum", Js.Num (Js.Fin 100)) ])))
  else
    makeRequest self POST "/api/validate/bulk" (Some [("emails", emails)]).

(** ** Specification-side definitions *)

(** The classification the [catch] clause makes, by its own tests and in
    their order: [instanceof VerifyForgeError], then the name
    [AbortError], then [instanceof TypeError], then [instanceof Error]. *)
Inductive Classified : Thrown -> VerifyForgeError -> Prop :=
| Classified_own (e : VerifyForgeError) :
    Classified (ThrowVF e) e
| Classified_abort (cls : Js.error_class) (msg : string) :
    Classified (ThrowError cls "AbortError" msg)
      (NetworkError_new (Js.Str "Request timed out"))
| Classified_transport (nm msg : string) :
    nm <> "AbortError" ->
    Classified (ThrowError Js.ClsTypeError nm msg)
      (NetworkError_new (Js.Str "Network request failed"))
| Classified_other (cls : Js.error_class) (nm msg : string) :
    nm <> "AbortError" -> cls <> Js.ClsTypeError ->
    Classified (ThrowError cls nm msg) (VerifyForgeError_new (Js.Str msg) None)
| Classified_not_an_error (v : Js.value) :
    Classified (ThrowValue v)
      (VerifyForgeError_new (Js.Str "Unknown error occurred") None).

(** The resolution of the configuration as the specification words it:
    the endpoint root is the given one without its trailing slash, the
    deadline is the given one, and the defaults apply when a value is
    left unspecified. *)
Definition resolved_as_given (config : VerifyForgeConfig) (self : VerifyForge) : Prop :=
  getBaseUrl self
  = match cfg_baseUrl config with
    | None => default_baseUrl
    | Some b => replace_trailing_slash b
    end
  /\ getTimeout self
     = match cfg_timeout config with
       | None => default_timeout
       | Some t => t
       end.

(** The header set as the component design words it: exactly the
    credential, the content type and the accept declaration. *)
Definition three_fixed_headers (req : Request) : Prop :=
  List.map fst (req_headers req) = ["X-API-Key"; "Content-Type"; "Accept"].

(** ** Fixtures: a client, mocked transports, payloads *)

Definition client_k1 : VerifyForge :=
  {| apiKey := "k1"; baseUrl := default_baseUrl; timeout := default_timeout |}.

(** A transport that answers every request the same way; nothing issued yet. *)
Definition mock (answer : FetchOutcome) : World :=
  {| transport := fun _ => answer; issued := [] |}.

Definition email_params (s : string) : option (list (string * Js.value)) :=
  Some [("email", Js.Str s)].

(** The error payload [{success: false, error: "bad email", details: {field: "email"}}]. *)
Definition payload_bad_email : list (string * Js.value) :=
  [ ("success", Js.Bool false);
    ("error", Js.Str "bad email");
    ("details", Js.Obj [("field", Js.Str "email")]) ].

Definition response_400_bad_email : Response :=
  {| status := 400; body := BodyJson (Js.Obj payload_bad_email) |}.

(** The success payload [{success: true, creditsUsed: 1, remainingCredits: 99}]. *)
Definition payload_success : Js.value :=
  Js.Obj [ ("success", Js.Bool true);
           ("creditsUsed", Js.Num (Js.Fin 1));
           ("remainingCredits", Js.Num (Js.Fin 99)) ].

Definition response_200 : Response :=
  {| status := 200; body := BodyJson payload_success |}.

Definition response_html (st : Z) : Response :=
  {| status := st; body := BodyMalformed "Unexpected token <" |}.

Definition response_null (st : Z) : Response :=
  {| status := st; body := BodyJson Js.Null |}.

Definition config_falsy : VerifyForgeConfig :=
  {| cfg_apiKey := Some "k1"; cfg_baseUrl := Some "/";
     cfg_timeout := Some (Js.Fin 0) |}.

Definition config_custom : VerifyForgeConfig :=
  {| cfg_apiKey := Some "k1"; cfg_baseUrl := Some "https://custom-domain.com/";
     cfg_timeout := Some (Js.Fin 60000) |}.

Definition emails_101 : list Js.value := List.repeat (Js.Str "a@b.com") 101.

(** ** src/errors.ts: [toString] *)

(** [v && Object.keys(v).length > 0]: a falsy value has no keys to show, a
    boolean or a number has none, a string and an array have one per
    position, an object one per own property. *)
Definition has_keys (v : Js.value) : bool :=
  match v with
  | Js.Str s => negb (String.eqb s "")
  | Js.Arr elems => negb (Nat.eqb (List.length elems) 0)
  | Js.Obj fields => negb (Nat.eqb (List.length fields) 0)
  | _ => false
  end.

(** [toString()] (errors.ts, lines 39-59).  [JSON.stringify] is the
    runtime's and is taken as the parameter [stringify]. *)
Definition toString (stringify : Js.value -> string) (e : VerifyForgeError) : string :=
  let parts := [(name e ++ ": " ++ message e)%string] in
  let parts :=
    match statusCode e with
    | Some z =>
        if Js.truthy (Js.Num (Js.Fin z)) then
          parts ++ [("Status Code: " ++ Js.number_to_string (Js.Fin z))%string]
        else parts
    | None => parts
    end in
  let parts :=
    match errorCode e with
    | Some c =>
        if Js.truthy (Js.Str c) then parts ++ [("Error Code: " ++ c)%string]
        else parts
    | None => parts
    end in
  let parts :=
    if has_keys (details e) then
      parts ++ [("Details: " ++ stringify (details e))%string]
    else parts in
  let parts :=
    if Js.truthy (Js.Str (docsUrl e)) then
      parts ++ [("Docs: " ++ docsUrl e)%string]
    else parts in
  String.concat " | " parts.

(** One optional part of the string form, with its separator. *)
Definition segment (shown : bool) (label value : string) : string :=
  if shown then (" | " ++ label ++ ": " ++ value)%string else "".

(** ** Tables read off the constructors of errors.ts *)

(** The [name] each class assigns. *)
Definition class_name (k : ErrorKind) : string :=
  match k with
  | KVerifyForgeError => "VerifyForgeError"
  | KAuthenticationError => "AuthenticationError"
  | KRateLimitError => "RateLimitError"
  | KInsufficientCreditsError => "InsufficientCreditsError"
  | KValidationError => "ValidationError"
  | KAPIError => "APIError"
  | KNetworkError => "NetworkError"
  end.

(** The [errorCode] each subclass passes to [super]; the base class, as
    the executor constructs it, passes none. *)
Definition class_errorCode (k : ErrorKind) : option string :=
  match k with
  | KVerifyForgeError => None
  | KAuthenticationError => Some "AUTHENTICATION_ERROR"
  | KRateLimitError => Some "RATE_LIMIT_ERROR"
  | KInsufficientCreditsError => Some "INSUFFICIENT_CREDITS"
  | KValidationError => Some "VALIDATION_ERROR"
  | KAPIError => Some "API_ERROR"
  | KNetworkError => Some "NETWORK_ERROR"
  end.

(** The [statusCode] that goes with each class: fixed for four of them,
    any number for [APIError], none for [NetworkError] and for the base
    class as the executor constructs it. *)
Definition class_statusCode (k : ErrorKind) (code : option Z) : Prop :=
  match k with
  | KVerifyForgeError => code = None
  | KAuthenticationError => code = Some 401
  | KRateLimitError => code = Some 429
  | KInsufficientCreditsError => code = Some 402
  | KValidationError => code = Some 400
  | KAPIError => exists z, code = Some z
  | KNetworkError => code = None
  end.

(** An error whose own properties agree with its class. *)
Definition consistent (e : VerifyForgeError) : Prop :=
  name e = class_name (kind e)
  /\ errorCode e = class_errorCode (kind e)
  /\ class_statusCode (kind e) (statusCode e)
  /\ docsUrl e = default_docsUrl.

(** ** Helpers for stating properties *)

(** [v === undefined || v === null] *)
Definition nullish (v : Js.value) : bool :=
  match v with
  | Js.Undefined | Js.Null => true
  | _ => false
  end.

(** The last character of a string. *)
Fixpoint last_char (s : string) : option ascii :=
  match s with
  | EmptyString => None
  | String c rest =>
      match rest with
      | EmptyString => Some c
      | String _ _ => last_char rest
      end
  end.

(** A transport that never rejects with an error of the SDK's own
    hierarchy (no real [fetch] does: it knows nothing of these classes). *)
Definition foreign_rejections (w : World) : Prop :=
  forall req e, transport w req <> FetchRejects (ThrowVF e).

(** The configuration that spells out the resolved values of a client. *)
Definition config_of (self : VerifyForge) : VerifyForgeConfig :=
  {| cfg_apiKey := Some (apiKey self);
     cfg_baseUrl := Some (getBaseUrl self);
     cfg_timeout := Some (getTimeout self) |}.

(** * Properties *)

(** ** The error constructors *)

Lemma NetworkError_fields (s : string) :
  kind (NetworkError_new (Js.Str s)) = KNetworkError /\
  message (NetworkError_new (Js.Str s)) = s /\
  statusCode (NetworkError_new (Js.Str s)) = None.
Proof. repeat split. Qed.

Lemma ValidationError_fields (m d : Js.value) :
  kind (ValidationError_new m d) = KValidationError /\
  message (ValidationError_new m d) = Error_message m /\
  statusCode (ValidationError_new m d) = Some 400 /\
  details (ValidationError_new m d) = d.
Proof. repeat split. Qed.

Lemma APIError_fields (m : Js.value) (st : Z) :
  kind (APIError_new m (Some st)) = KAPIError /\
  message (APIError_new m (Some st)) = Error_message m /\
  statusCode (APIError_new m (Some st)) = Some st.
Proof. repeat split. Qed.

Lemma base_error_fields (s : string) :
  kind (VerifyForgeError_new (Js.Str s) None) = KVerifyForgeError /\
  message (VerifyForgeError_new (Js.Str s) None) = s /\
  statusCode (VerifyForgeError_new (Js.Str s) None) = None /\
  errorCode (VerifyForgeError_new (Js.Str s) None) = None.
Proof. repeat split. Qed.

(** [a || b] on a non-empty string, a falsy value, a truthy value. *)
Lemma or_nonempty_string (m : string) (b : Js.value) :
  m <> "" -> Js.or (Js.Str m) b = Js.Str m.
Proof.
  intros Hne. unfold Js.or. simpl.
  destruct (String.eqb_spec m ""); [contradiction | reflexivity].
Qed.

Lemma or_falsy (a b : Js.value) : Js.truthy a = false -> Js.or a b = b.
Proof. intros Hf. unfold Js.or. rewrite Hf. reflexivity. Qed.

Lemma or_truthy (a b : Js.value) : Js.truthy a = true -> Js.or a b = a.
Proof. intros Ht. unfold Js.or. rewrite Ht. reflexivity. Qed.

Lemma typeof_not_string (v : Js.value) :
  (forall s, v <> Js.Str s) -> String.eqb (Js.typeof v) "string" = false.
Proof.
  intros Hns. destruct v; try reflexivity.
  exfalso. apply (Hns s). reflexivity.
Qed.

Lemma stringifiable_or (a : Js.value) (fallback : string) :
  Js.stringifiable (Js.or a (Js.Str fallback)) = Js.stringifiable a.
Proof.
  unfold Js.or. destruct (Js.truthy a) eqn:Ht; [reflexivity |].
  destruct a; try reflexivity; discriminate.
Qed.

(** ** The [catch] clause *)

Lemma makeRequest_catch_world (e : Thrown) (w : World) :
  snd (makeRequest_catch e w) = w.
Proof.
  destruct e as [e | cls nm msg | v]; simpl; try reflexivity.
  destruct (String.eqb nm "AbortError"); [reflexivity |].
  destruct (Js.instanceof_TypeError cls); reflexivity.
Qed.

Lemma Classified_functional (x : Thrown) (e1 e2 : VerifyForgeError) :
  Classified x e1 -> Classified x e2 -> e1 = e2.
Proof.
  intros H1 H2.
  destruct H1; inversion H2; subst; try reflexivity; congruence.
Qed.

Lemma makeRequest_catch_classified (x : Thrown) (w : World) :
  exists e, makeRequest_catch x w = (Throws (ThrowVF e), w) /\ Classified x e.
Proof.
  destruct x as [e | cls nm msg | v]; simpl.
  - eexists; split; [reflexivity | constructor].
  - destruct (String.eqb_spec nm "AbortError") as [-> | Hnm].
    + eexists; split; [reflexivity | constructor].
    + destruct cls; simpl; eexists; (split; [reflexivity |]);
        constructor; solve [assumption | discriminate].
  - eexists; split; [reflexivity | constructor].
Qed.

(** ** The executor as a whole *)

Section Executor.

Variables (self : VerifyForge) (method : Method) (endpoint : string).
Variable params : option (list (string * Js.value)).

Lemma makeRequest_try_world (w : World) :
  snd (makeRequest_try self method endpoint params w)
  = log_request (request self method endpoint params) w.
Proof.
  unfold makeRequest_try, bind, fetch.
  destruct (transport w _) as [r | e]; [| reflexivity].
  repeat match goal with
         | |- context [if ?b then _ else _] => destruct b
         end;
    unfold json, try_catch, lift, get_prop, throw, ret;
    try reflexivity;
    destruct (body r) as [v | why | why]; try reflexivity;
    destruct v; unfold construct;
    repeat match goal with
           | |- context [if ?b then _ else _] => destruct b
           end;
    reflexivity.
Qed.

Lemma makeRequest_world (w : World) :
  snd (makeRequest self method endpoint params w)
  = log_request (request self method endpoint params) w.
Proof.
  unfold makeRequest, try_catch.
  pose proof (makeRequest_try_world w) as Hw.
  destruct (makeRequest_try self method endpoint params w) as [[v | e] w'];
    simpl in Hw; subst w'; [reflexivity |].
  apply makeRequest_catch_world.
Qed.

Lemma makeRequest_rejects_in_taxonomy (w : World) (x : Thrown) (w2 : World) :
  makeRequest self method endpoint params w = (Throws x, w2) ->
  exists err, x = ThrowVF err.
Proof.
  unfold makeRequest, try_catch.
  destruct (makeRequest_try self method endpoint params w) as [[v | e] w'].
  - discriminate.
  - destruct (makeRequest_catch_classified e w') as [err [Hrun _]].
    rewrite Hrun. intros Heq. exists err. congruence.
Qed.

(** C9 (amended).  Every call of the executor issues exactly one request,
    and that request carries exactly four headers, in this order: the
    credential as [X-API-Key], [Content-Type: application/json],
    [Accept: application/json] and the fixed client identifier
    [User-Agent: VerifyForge-TypeScript-SDK/1.0.0]. *)
Theorem C9_four_fixed_headers (w : World) :
  issued (snd (makeRequest self method endpoint params w))
  = issued w ++ [request self method endpoint params]
  /\ req_headers (request self method endpoint params)
     = [ ("X-API-Key", apiKey self);
         ("Content-Type", "application/json");
         ("Accept", "application/json");
         ("User-Agent", "VerifyForge-TypeScript-SDK/1.0.0") ].
Proof.
  split; [| reflexivity].
  rewrite makeRequest_world. reflexivity.
Qed.

(** *** The status dispatch, for a transport that answers with [r] *)

Section Dispatch.

Variables (w : World) (r : Response).
Hypothesis Hfetch :
  transport w (request self method endpoint params) = FetchResolves r.

Local Abbreviation sent := (log_request (request self method endpoint params) w).

(** Runs the executor up to the status dispatch. *)
Ltac run_fetch :=
  unfold makeRequest, try_catch, makeRequest_try, bind, fetch;
  rewrite Hfetch.

(** Decides the five status tests from arithmetic facts in the context. *)
Ltac decide_status :=
  repeat match goal with
         | |- context [status r =? ?n] =>
             first [ replace (status r =? n) with false
                       by (symmetry; apply Z.eqb_neq; lia)
                   | replace (status r =? n) with true
                       by (symmetry; apply Z.eqb_eq; lia) ]
         | |- context [500 <=? status r] =>
             first [ replace (500 <=? status r) with false
                       by (symmetry; apply Z.leb_gt; lia)
                   | replace (500 <=? status r) with true
                       by (symmetry; apply Z.leb_le; lia) ]
         end.

Lemma ok_2xx : 200 <= status r <= 299 -> ok r = true.
Proof.
  intros H. unfold ok. apply andb_true_iff. split; apply Z.leb_le; lia.
Qed.

Lemma not_ok_outside_2xx : status r < 200 \/ 299 < status r -> ok r = false.
Proof.
  intros H. unfold ok. apply andb_false_iff.
  destruct H; [left | right]; apply Z.leb_gt; lia.
Qed.

(** C1.  Whatever the body of the response, status 401 makes the executor
    reject with an [AuthenticationError] "Invalid API key", status 402 with
    an [InsufficientCreditsError] "Insufficient credits" and status 429
    with a [RateLimitError] "Rate limit exceeded"; no other branch of the
    dispatch is consulted and the error passes the [catch] clause as it is. *)
Theorem C1_status_401_402_429 :
  (status r = 401 ->
     exists e,
       makeRequest self method endpoint params w = (Throws (ThrowVF e), sent)
       /\ e = AuthenticationError_new (Js.Str "Invalid API key")
       /\ kind e = KAuthenticationError /\ message e = "Invalid API key")
  /\ (status r = 402 ->
     exists e,
       makeRequest self method endpoint params w = (Throws (ThrowVF e), sent)
       /\ e = InsufficientCreditsError_new (Js.Str "Insufficient credits")
       /\ kind e = KInsufficientCreditsError /\ message e = "Insufficient credits")
  /\ (status r = 429 ->
     exists e,
       makeRequest self method endpoint params w = (Throws (ThrowVF e), sent)
       /\ e = RateLimitError_new (Js.Str "Rate limit exceeded")
       /\ kind e = KRateLimitError /\ message e = "Rate limit exceeded").
Proof.
  repeat split; intros Hst; eexists; run_fetch; rewrite Hst; simpl;
    repeat split.
Qed.

(** X1.  A response with status 400 whose body parses to an object whose
    [error] property, if any, converts to a string: the executor rejects
    with a [ValidationError] (status code 400, code VALIDATION_ERROR)
    whose details are the object's [details] property and whose message
    is "Validation failed" when the [error] property is missing or falsy
    and the [error] property itself when that is a non-empty string. *)
Theorem status_400_payload (fields : list (string * Js.value))
    (Hstatus : status r = 400)
    (Hbody : body r = BodyJson (Js.Obj fields))
    (Hconv : Js.stringifiable (Js.lookup "error" fields) = true) :
  exists e,
    makeRequest self method endpoint params w = (Throws (ThrowVF e), sent)
    /\ kind e = KValidationError
    /\ statusCode e = Some 400
    /\ errorCode e = Some "VALIDATION_ERROR"
    /\ details e = Js.lookup "details" fields
    /\ (Js.truthy (Js.lookup "error" fields) = false -> message e = "Validation failed")
    /\ (forall m, Js.lookup "error" fields = Js.Str m -> m <> "" -> message e = m).
Proof.
  eexists. run_fetch. rewrite Hstatus. simpl.
  unfold json. rewrite Hbody. simpl.
  unfold construct. rewrite stringifiable_or, Hconv. simpl.
  split; [reflexivity |]. repeat split; simpl.
  - intros Hf. rewrite (or_falsy _ _ Hf). reflexivity.
  - intros m Hm Hne. rewrite Hm, (or_nonempty_string _ _ Hne). reflexivity.
Qed.

(** X2.  A response with a status of 500 or more: the executor rejects with
    an [APIError] "Internal server error" carrying the status, whatever the
    body (it is never decoded). *)
Theorem status_5xx (Hstatus : 500 <= status r) :
  exists e,
    makeRequest self method endpoint params w = (Throws (ThrowVF e), sent)
    /\ e = APIError_new (Js.Str "Internal server error") (Some (status r))
    /\ kind e = KAPIError
    /\ message e = "Internal server error"
    /\ statusCode e = Some (status r).
Proof.
  eexists. run_fetch. decide_status. simpl. repeat split.
Qed.

(** X3.  A response whose status is below 500, outside 200-299 and none of
    400, 401, 402, 429, whose body is not the JSON value [null] and, when
    it is an object, has an [error] property that converts to a string
    (or none): the executor rejects with an [APIError] carrying the
    status; the message is "Request failed" when [response.json()]
    rejects, when the decoded value is not an object, and when the object
    has no [error] property or a falsy one, and it is the [error] property
    when that is a non-empty string. *)
Theorem status_other_non_2xx
    (Hlow : status r < 500)
    (Hnot2xx : status r < 200 \/ 299 < status r)
    (Hnot4xx : status r <> 400 /\ status r <> 401 /\ status r <> 402 /\ status r <> 429)
    (Hnull : body r <> BodyJson Js.Null /\ body r <> BodyJson Js.Undefined)
    (Hconv : forall fields, body r = BodyJson (Js.Obj fields) ->
             Js.stringifiable (Js.lookup "error" fields) = true) :
  exists e,
    makeRequest self method endpoint params w = (Throws (ThrowVF e), sent)
    /\ kind e = KAPIError
    /\ statusCode e = Some (status r)
    /\ errorCode e = Some "API_ERROR"
    /\ (forall why, body r = BodyMalformed why \/ body r = BodyUnreadable why ->
        message e = "Request failed")
    /\ (forall v, body r = BodyJson v -> (forall fields, v <> Js.Obj fields) ->
        message e = "Request failed")
    /\ (forall fields, body r = BodyJson (Js.Obj fields) ->
        Js.truthy (Js.lookup "error" fields) = false -> message e = "Request failed")
    /\ (forall fields m, body r = BodyJson (Js.Obj fields) ->
        Js.lookup "error" fields = Js.Str m -> m <> "" -> message e = m).
Proof.
  destruct Hnot4xx as (N400 & N401 & N402 & N429). destruct Hnull as [Nnull Nundef].
  run_fetch. decide_status. rewrite (not_ok_outside_2xx Hnot2xx). simpl.
  unfold json.
  destruct (body r) as [v | why | why] eqn:Hbody; simpl.
  - destruct v as [| | b | n | s | l | f]; try congruence; simpl;
      try (eexists; (split; [reflexivity |]); repeat split;
           try (intros ? [? | ?]; discriminate);
           try (intros ? ? ?; discriminate);
           try (intros ? ? ? ? ?; discriminate);
           intros; reflexivity).
    unfold construct. rewrite stringifiable_or, (Hconv f eq_refl). simpl.
    eexists. split; [reflexivity |]. repeat split.
    + intros ? [? | ?]; discriminate.
    + intros v Heq Hno. exfalso. apply (Hno f). congruence.
    + intros fields Heq Hf. injection Heq as <-.
      simpl. rewrite (or_falsy _ _ Hf). reflexivity.
    + intros fields m Heq Hm Hne. injection Heq as <-.
      simpl. rewrite Hm, (or_nonempty_string _ _ Hne). reflexivity.
  - eexists; (split; [reflexivity |]); repeat split; intros; try discriminate;
      reflexivity.
  - eexists; (split; [reflexivity |]); repeat split; intros; try discriminate;
      reflexivity.
Qed.

(** C6 (amended).  For a response with a 2xx status the executor returns
    the decoded body as it is.  When the body fails to parse, the
    [SyntaxError] of [response.json()] reaches the [catch] clause and is
    surfaced as a plain [VerifyForgeError] (the base class: no subclass,
    no status code) carrying the parser's message.  When the body cannot
    be read, [response.json()] rejects with a [TypeError] and the [catch]
    clause surfaces it as a [NetworkError] "Network request failed". *)
Theorem C6_success_body (H2xx : 200 <= status r <= 299) :
  (forall v, body r = BodyJson v ->
     makeRequest self method endpoint params w = (Returns v, sent))
  /\ (forall why, body r = BodyMalformed why ->
     exists e,
       makeRequest self method endpoint params w = (Throws (ThrowVF e), sent)
       /\ e = VerifyForgeError_new (Js.Str why) None
       /\ kind e = KVerifyForgeError /\ message e = why
       /\ statusCode e = None /\ errorCode e = None)
  /\ (forall why, body r = BodyUnreadable why ->
     exists e,
       makeRequest self method endpoint params w = (Throws (ThrowVF e), sent)
       /\ e = NetworkError_new (Js.Str "Network request failed")
       /\ kind e = KNetworkError /\ message e = "Network request failed"
       /\ statusCode e = None /\ errorCode e = Some "NETWORK_ERROR").
Proof.
  split; [| split].
  - intros v Hbody. run_fetch. decide_status. rewrite (ok_2xx H2xx). simpl.
    unfold json. rewrite Hbody. reflexivity.
  - intros why Hbody. eexists. run_fetch. decide_status.
    rewrite (ok_2xx H2xx). simpl.
    unfold json. rewrite Hbody. simpl. repeat split.
  - intros why Hbody. eexists. run_fetch. decide_status.
    rewrite (ok_2xx H2xx). simpl.
    unfold json. rewrite Hbody. simpl. repeat split.
Qed.

End Dispatch.

End Executor.

(** C7 (amended).  Whatever exception [e] the [try] block of the executor
    ends with, the executor rejects with an error of the taxonomy chosen
    by these tests, in order: an error of the taxonomy itself is re-thrown
    unchanged; an [Error] named [AbortError] becomes a [NetworkError]
    "Request timed out"; any other [TypeError], the class [fetch] rejects
    with when the transport fails, becomes a [NetworkError] "Network
    request failed"; any other [Error] becomes a base [VerifyForgeError]
    with the same message; a thrown value that is not an [Error] becomes
    a base [VerifyForgeError] "Unknown error occurred".  Hence whatever
    [validate] and [validateBulk] reject with is an error of the taxonomy. *)
Theorem C7_catch_classification
    (self : VerifyForge) (method : Method) (endpoint : string)
    (params : option (list (string * Js.value))) (w w' : World) (e : Thrown)
    (Htry : makeRequest_try self method endpoint params w = (Throws e, w')) :
  (exists err,
     makeRequest self method endpoint params w = (Throws (ThrowVF err), w')
     /\ (forall own, e = ThrowVF own -> err = own)
     /\ (forall cls msg, e = ThrowError cls "AbortError" msg ->
         kind err = KNetworkError /\ message err = "Request timed out"
         /\ statusCode err = None /\ errorCode err = Some "NETWORK_ERROR")
     /\ (forall nm msg, e = ThrowError Js.ClsTypeError nm msg -> nm <> "AbortError" ->
         kind err = KNetworkError /\ message err = "Network request failed"
         /\ statusCode err = None /\ errorCode err = Some "NETWORK_ERROR")
     /\ (forall cls nm msg, e = ThrowError cls nm msg ->
         nm <> "AbortError" -> cls <> Js.ClsTypeError ->
         kind err = KVerifyForgeError /\ message err = msg
         /\ statusCode err = None /\ errorCode err = None)
     /\ (forall v, e = ThrowValue v ->
         kind err = KVerifyForgeError /\ message err = "Unknown error occurred"
         /\ statusCode err = None /\ errorCode err = None))
  /\ (forall email w0 x w2,
        validate self email w0 = (Throws x, w2) -> exists err, x = ThrowVF err)
  /\ (forall emails w0 x w2,
        validateBulk self emails w0 = (Throws x, w2) -> exists err, x = ThrowVF err).
Proof.
  split; [| split].
  - unfold makeRequest, try_catch. rewrite Htry.
    destruct e as [own | cls nm msg | v]; simpl;
      [ | destruct (String.eqb_spec nm "AbortError") as [-> | Hnm];
          [ | destruct cls; simpl ] | ];
      eexists; (split; [reflexivity |]);
      repeat split; intros;
      repeat match goal with
             | H : _ = _ :> Thrown |- _ => inversion H; clear H; subst
             end;
      solve [reflexivity | congruence | contradiction].
  - intros email w0 x w2. unfold validate.
    destruct (negb (Js.truthy email) || negb (String.eqb (Js.typeof email) "string")).
    + intros Hrun. injection Hrun as <- _. eexists. reflexivity.
    + apply makeRequest_rejects_in_taxonomy.
  - intros emails w0 x w2. unfold validateBulk.
    destruct (negb (Js.isArray emails) || (array_length emails =? 0)).
    + intros Hrun. injection Hrun as <- _. eexists. reflexivity.
    + destruct (100 <? array_length emails).
      * intros Hrun. injection Hrun as <- _. eexists. reflexivity.
      * apply makeRequest_rejects_in_taxonomy.
Qed.

(** *** The dispatch on mocked transports *)

Lemma C1_status_401_402_429_witness :
  exists e,
    makeRequest client_k1 GET "/api/validate" (email_params "a@b.com")
      (mock (FetchResolves (response_html 401)))
    = (Throws (ThrowVF e),
       log_request (request client_k1 GET "/api/validate" (email_params "a@b.com"))
         (mock (FetchResolves (response_html 401))))
    /\ e = AuthenticationError_new (Js.Str "Invalid API key")
    /\ kind e = KAuthenticationError /\ message e = "Invalid API key".
Proof.
  exact (proj1 (C1_status_401_402_429 client_k1 GET "/api/validate"
                  (email_params "a@b.com")
                  (mock (FetchResolves (response_html 401)))
                  (response_html 401) eq_refl)
           eq_refl).
Defined.

Lemma status_400_payload_witness :
  exists e,
    makeRequest client_k1 GET "/api/validate" (email_params "a@b.com")
      (mock (FetchResolves response_400_bad_email))
    = (Throws (ThrowVF e),
       log_request (request client_k1 GET "/api/validate" (email_params "a@b.com"))
         (mock (FetchResolves response_400_bad_email)))
    /\ kind e = KValidationError
    /\ statusCode e = Some 400
    /\ errorCode e = Some "VALIDATION_ERROR"
    /\ details e = Js.Obj [("field", Js.Str "email")]
    /\ message e = "bad email".
Proof.
  destruct (status_400_payload client_k1 GET "/api/validate" (email_params "a@b.com")
              (mock (FetchResolves response_400_bad_email))
              response_400_bad_email eq_refl payload_bad_email eq_refl eq_refl eq_refl)
    as (e & Hrun & Hkind & Hstatus & Hcode & Hdetails & _ & Hmessage).
  exists e. repeat split; try assumption.
  apply (Hmessage "bad email"); [reflexivity | discriminate].
Defined.

(** An [error] property that ToString rejects: the [TypeError] thrown
    inside [new ValidationError(...)] ends as a [NetworkError]. *)
Example status_400_unconvertible_error :
  fst (makeRequest client_k1 GET "/api/validate" (email_params "a@b.com")
         (mock (FetchResolves
                  {| status := 400;
                     body := BodyJson
                               (Js.Obj [("error", Js.Obj [("toString", Js.Str "x")])]) |})))
  = Throws (ThrowVF (NetworkError_new (Js.Str "Network request failed"))).
Proof. reflexivity. Qed.

(** The mocked 400 of the specification's testable properties. *)
Example status_400_bad_email :
  fst (makeRequest client_k1 GET "/api/validate" (email_params "a@b.com")
         (mock (FetchResolves response_400_bad_email)))
  = Throws (ThrowVF (ValidationError_new (Js.Str "bad email")
                       (Js.Obj [("field", Js.Str "email")]))).
Proof. reflexivity. Qed.

Lemma status_5xx_witness :
  exists e,
    makeRequest client_k1 GET "/api/validate" (email_params "a@b.com")
      (mock (FetchResolves (response_html 503)))
    = (Throws (ThrowVF e),
       log_request (request client_k1 GET "/api/validate" (email_params "a@b.com"))
         (mock (FetchResolves (response_html 503))))
    /\ e = APIError_new (Js.Str "Internal server error") (Some 503)
    /\ kind e = KAPIError
    /\ message e = "Internal server error"
    /\ statusCode e = Some 503.
Proof.
  exact (status_5xx client_k1 GET "/api/validate" (email_params "a@b.com")
           (mock (FetchResolves (response_html 503)))
           (response_html 503) eq_refl ltac:(simpl; lia)).
Defined.

Lemma status_other_non_2xx_witness :
  exists e,
    makeRequest client_k1 GET "/api/validate" (email_params "a@b.com")
      (mock (FetchResolves (response_html 404)))
    = (Throws (ThrowVF e),
       log_request (request client_k1 GET "/api/validate" (email_params "a@b.com"))
         (mock (FetchResolves (response_html 404))))
    /\ kind e = KAPIError
    /\ statusCode e = Some 404
    /\ errorCode e = Some "API_ERROR"
    /\ message e = "Request failed".
Proof.
  destruct (status_other_non_2xx client_k1 GET "/api/validate" (email_params "a@b.com")
              (mock (FetchResolves (response_html 404)))
              (response_html 404) eq_refl
              ltac:(simpl; lia)
              ltac:(right; simpl; lia)
              ltac:(simpl; repeat split; lia)
              ltac:(split; discriminate)
              ltac:(intros fields Heq; discriminate Heq))
    as (e & Hrun & Hkind & Hstatus & Hcode & Hmessage & _).
  exists e. repeat split; try assumption.
  apply (Hmessage "Unexpected token <"). left. reflexivity.
Defined.

Lemma C6_success_body_witness :
  makeRequest client_k1 GET "/api/validate" (email_params "a@b.com")
    (mock (FetchResolves response_200))
  = (Returns payload_success,
     log_request (request client_k1 GET "/api/validate" (email_params "a@b.com"))
       (mock (FetchResolves response_200))).
Proof.
  exact (proj1 (C6_success_body client_k1 GET "/api/validate" (email_params "a@b.com")
                  (mock (FetchResolves response_200)) response_200 eq_refl
                  ltac:(simpl; lia))
           payload_success eq_refl).
Defined.

(** C6 (as stated) fails: on a 200 response whose body cannot be read,
    [response.json()] rejects with a [TypeError] and the executor rejects
    with a [NetworkError], not with a base-kind error. *)
Lemma C6_unreadable_body_counterexample :
  ok {| status := 200; body := BodyUnreadable "terminated" |} = true
  /\ json {| status := 200; body := BodyUnreadable "terminated" |}
       (mock (FetchResolves {| status := 200; body := BodyUnreadable "terminated" |}))
     = (Throws (ThrowError Js.ClsTypeError "TypeError" "terminated"),
        mock (FetchResolves {| status := 200; body := BodyUnreadable "terminated" |}))
  /\ fst (makeRequest client_k1 GET "/api/validate" (email_params "a@b.com")
            (mock (FetchResolves {| status := 200; body := BodyUnreadable "terminated" |})))
     = Throws (ThrowVF (NetworkError_new (Js.Str "Network request failed")))
  /\ kind (NetworkError_new (Js.Str "Network request failed")) = KNetworkError
  /\ kind (NetworkError_new (Js.Str "Network request failed")) <> KVerifyForgeError.
Proof. repeat split. discriminate. Qed.

(** The end-to-end scenario: the resolved value has [remainingCredits] 99. *)
Example end_to_end_remaining_credits :
  match fst (validate client_k1 (Js.Str "a@b.com") (mock (FetchResolves response_200))) with
  | Returns v => get_prop v "remainingCredits"
  | Throws e => Throws e
  end = Returns (Js.Num (Js.Fin 99)).
Proof. reflexivity. Qed.

(** C4.  A response with status 400 whose body does not parse as JSON: the
    [await response.json()] of line 117 has no fallback (the one of line 129
    has), so the [SyntaxError] reaches the [catch] clause and the executor
    rejects with a base [VerifyForgeError] carrying the parser's message and
    no status code, not with a [ValidationError].  A body that parses to
    [null] ends as a [NetworkError], through the [TypeError] of reading
    [errorData.error]. *)
Theorem C4_status_400_undecodable_body :
  makeRequest client_k1 GET "/api/validate" (email_params "a@b.com")
    (mock (FetchResolves (response_html 400)))
  = (Throws (ThrowVF (VerifyForgeError_new (Js.Str "Unexpected token <") None)),
     log_request (request client_k1 GET "/api/validate" (email_params "a@b.com"))
       (mock (FetchResolves (response_html 400))))
  /\ kind (VerifyForgeError_new (Js.Str "Unexpected token <") None) = KVerifyForgeError
  /\ statusCode (VerifyForgeError_new (Js.Str "Unexpected token <") None) = None
  /\ fst (makeRequest client_k1 GET "/api/validate" (email_params "a@b.com")
            (mock (FetchResolves (response_null 400))))
     = Throws (ThrowVF (NetworkError_new (Js.Str "Network request failed"))).
Proof. repeat split. Qed.

(** C5.  A response with status 404 whose body is the JSON text [null]:
    decoding succeeds, reading [errorData.error] on [null] throws a
    [TypeError], and the [catch] clause reports it as a [NetworkError]
    "Network request failed" with no status code, not as an [APIError]
    with status 404. *)
Theorem C5_status_404_null_body :
  makeRequest client_k1 GET "/api/validate" (email_params "a@b.com")
    (mock (FetchResolves (response_null 404)))
  = (Throws (ThrowVF (NetworkError_new (Js.Str "Network request failed"))),
     log_request (request client_k1 GET "/api/validate" (email_params "a@b.com"))
       (mock (FetchResolves (response_null 404))))
  /\ kind (NetworkError_new (Js.Str "Network request failed")) = KNetworkError
  /\ statusCode (NetworkError_new (Js.Str "Network request failed")) = None.
Proof. repeat split. Qed.

(** *** The [catch] clause on mocked transports *)

Lemma C7_catch_classification_witness :
  exists err,
    makeRequest client_k1 GET "/api/validate" (email_params "a@b.com")
      (mock (FetchRejects AbortError))
    = (Throws (ThrowVF err),
       log_request (request client_k1 GET "/api/validate" (email_params "a@b.com"))
         (mock (FetchRejects AbortError)))
    /\ kind err = KNetworkError /\ message err = "Request timed out"
    /\ statusCode err = None /\ errorCode err = Some "NETWORK_ERROR".
Proof.
  destruct (proj1 (C7_catch_classification client_k1 GET "/api/validate"
                     (email_params "a@b.com") (mock (FetchRejects AbortError)) _
                     AbortError eq_refl))
    as (err & Hrun & _ & Habort & _).
  exists err. split; [exact Hrun |].
  exact (Habort Js.ClsDOMException "This operation was aborted" eq_refl).
Defined.

(** C7 (as stated) fails: the transport resolved (status 404, body
    [null]), so the exception the [try] block ends with is no failure of
    the transport but the [TypeError] of reading [errorData.error]; the
    [catch] clause still reports it as a [NetworkError], not as a base
    error carrying its message. *)
Lemma C7_client_TypeError_counterexample :
  transport (mock (FetchResolves (response_null 404)))
    (request client_k1 GET "/api/validate" (email_params "a@b.com"))
  = FetchResolves (response_null 404)
  /\ fst (makeRequest_try client_k1 GET "/api/validate" (email_params "a@b.com")
            (mock (FetchResolves (response_null 404))))
     = Throws (ThrowError Js.ClsTypeError "TypeError"
                 "Cannot read properties of null (reading 'error')")
  /\ fst (makeRequest client_k1 GET "/api/validate" (email_params "a@b.com")
            (mock (FetchResolves (response_null 404))))
     = Throws (ThrowVF (NetworkError_new (Js.Str "Network request failed")))
  /\ kind (NetworkError_new (Js.Str "Network request failed")) = KNetworkError
  /\ kind (NetworkError_new (Js.Str "Network request failed")) <> KVerifyForgeError
  /\ message (NetworkError_new (Js.Str "Network request failed"))
     <> "Cannot read properties of null (reading 'error')".
Proof. repeat split; discriminate. Qed.

Example timeout_is_network_error :
  fst (makeRequest client_k1 GET "/api/validate" (email_params "a@b.com")
         (mock (FetchRejects AbortError)))
  = Throws (ThrowVF (NetworkError_new (Js.Str "Request timed out"))).
Proof. reflexivity. Qed.

Example connection_refused_is_network_error :
  fst (makeRequest client_k1 GET "/api/validate" (email_params "a@b.com")
         (mock (FetchRejects (ThrowError Js.ClsTypeError "TypeError" "fetch failed"))))
  = Throws (ThrowVF (NetworkError_new (Js.Str "Network request failed"))).
Proof. reflexivity. Qed.

Example other_error_is_wrapped :
  fst (makeRequest client_k1 GET "/api/validate" (email_params "a@b.com")
         (mock (FetchRejects (ThrowError Js.ClsError "Error" "boom"))))
  = Throws (ThrowVF (VerifyForgeError_new (Js.Str "boom") None)).
Proof. reflexivity. Qed.

Example thrown_value_is_unknown_error :
  fst (makeRequest client_k1 GET "/api/validate" (email_params "a@b.com")
         (mock (FetchRejects (ThrowValue (Js.Str "boom")))))
  = Throws (ThrowVF (VerifyForgeError_new (Js.Str "Unknown error occurred") None)).
Proof. reflexivity. Qed.

(** *** The fixed headers *)

(** C9 (as stated) fails: the request of a plain [validate] call carries
    four headers, the fourth being the client identifier. *)
Lemma C9_headers_counterexample :
  List.length (req_headers (request client_k1 GET "/api/validate" (email_params "a@b.com")))
  = 4%nat
  /\ List.In ("User-Agent", "VerifyForge-TypeScript-SDK/1.0.0")
       (req_headers (request client_k1 GET "/api/validate" (email_params "a@b.com")))
  /\ ~ three_fixed_headers (request client_k1 GET "/api/validate" (email_params "a@b.com")).
Proof.
  split; [reflexivity |]. split.
  - simpl. tauto.
  - unfold three_fixed_headers. simpl. discriminate.
Qed.

(** ** The public operations *)

Section Operations.

Variables (self : VerifyForge) (w : World).

(** C2.  [validateBulk] rejects an argument that is not an array, an empty
    array, and an array of more than 100 elements with a [ValidationError]
    and leaves the world untouched (no request is issued); past 100 the
    error's details are [{provided: n, maximum: 100}].  With 1 to 100
    elements the checks pass: the call is the POST request to
    [/api/validate/bulk], and exactly that request is issued. *)
Theorem C2_validateBulk_checks (emails : Js.value) :
  (Js.isArray emails = false \/ emails = Js.Arr [] ->
     exists e,
       validateBulk self emails w = (Throws (ThrowVF e), w)
       /\ kind e = KValidationError
       /\ message e = "Emails must be a non-empty array")
  /\ (forall elems, emails = Js.Arr elems -> (100 < List.length elems)%nat ->
     exists e,
       validateBulk self emails w = (Throws (ThrowVF e), w)
       /\ kind e = KValidationError
       /\ message e = "Maximum 100 emails allowed per request"
       /\ details e
          = Js.Obj [ ("provided", Js.Num (Js.Fin (Z.of_nat (List.length elems))));
                     ("maximum", Js.Num (Js.Fin 100)) ])
  /\ (forall elems, emails = Js.Arr elems ->
        (1 <= List.length elems <= 100)%nat ->
     validateBulk self emails w
     = makeRequest self POST "/api/validate/bulk" (Some [("emails", emails)]) w
     /\ issued (snd (validateBulk self emails w))
        = issued w
          ++ [request self POST "/api/validate/bulk" (Some [("emails", emails)])]).
Proof.
  split; [| split].
  - intros [Hna | ->]; eexists; unfold validateBulk.
    + rewrite Hna; simpl; repeat split.
    + simpl; repeat split.
  - intros elems -> Hlen. eexists. unfold validateBulk. simpl.
    replace (Z.of_nat (List.length elems) =? 0) with false
      by (symmetry; apply Z.eqb_neq; lia).
    replace (100 <? Z.of_nat (List.length elems)) with true
      by (symmetry; apply Z.ltb_lt; lia).
    repeat split.
  - intros elems -> Hlen.
    assert (Hrun : validateBulk self (Js.Arr elems) w
                   = makeRequest self POST "/api/validate/bulk"
                       (Some [("emails", Js.Arr elems)]) w).
    { unfold validateBulk. simpl.
      replace (Z.of_nat (List.length elems) =? 0) with false
        by (symmetry; apply Z.eqb_neq; lia).
      replace (100 <? Z.of_nat (List.length elems)) with false
        by (symmetry; apply Z.ltb_ge; lia).
      reflexivity. }
    split; [exact Hrun |].
    rewrite Hrun, makeRequest_world. reflexivity.
Qed.

(** C3.  [validate] rejects the empty string and every value that is not a
    string with a [ValidationError], leaving the world untouched (no
    request is issued); for a non-empty string the check passes: the call
    is the GET request to [/api/validate] with the query [email=s], and
    exactly that request is issued. *)
Theorem C3_validate_check (email : Js.value) :
  (email = Js.Str "" \/ (forall s, email <> Js.Str s) ->
     exists e,
       validate self email w = (Throws (ThrowVF e), w)
       /\ kind e = KValidationError
       /\ message e = "Email must be a non-empty string")
  /\ (forall s, email = Js.Str s -> s <> "" ->
     validate self email w = makeRequest self GET "/api/validate" (email_params s) w
     /\ issued (snd (validate self email w))
        = issued w ++ [request self GET "/api/validate" (email_params s)]
     /\ req_query (request self GET "/api/validate" (email_params s))
        = Some [("email", s)]).
Proof.
  split.
  - intros [-> | Hns]; eexists; unfold validate.
    + simpl; repeat split.
    + rewrite (typeof_not_string email Hns), orb_true_r. repeat split.
  - intros s -> Hne.
    assert (Hrun : validate self (Js.Str s) w
                   = makeRequest self GET "/api/validate" (email_params s) w).
    { unfold validate. simpl.
      destruct (String.eqb_spec s ""); [contradiction | reflexivity]. }
    split; [exact Hrun |]. split; [| reflexivity].
    rewrite Hrun, makeRequest_world. reflexivity.
Qed.

End Operations.

Lemma C2_validateBulk_checks_witness :
  exists e,
    validateBulk client_k1 (Js.Arr emails_101) (mock (FetchResolves response_200))
    = (Throws (ThrowVF e), mock (FetchResolves response_200))
    /\ kind e = KValidationError
    /\ message e = "Maximum 100 emails allowed per request"
    /\ details e
       = Js.Obj [ ("provided", Js.Num (Js.Fin (Z.of_nat (List.length emails_101))));
                  ("maximum", Js.Num (Js.Fin 100)) ].
Proof.
  apply (proj1 (proj2 (C2_validateBulk_checks client_k1
                         (mock (FetchResolves response_200))
                         (Js.Arr emails_101)))
           emails_101 eq_refl).
  unfold emails_101. rewrite List.repeat_length. lia.
Defined.

Example validateBulk_101_details :
  fst (validateBulk client_k1 (Js.Arr emails_101) (mock (FetchResolves response_200)))
  = Throws (ThrowVF (ValidationError_new
                       (Js.Str "Maximum 100 emails allowed per request")
                       (Js.Obj [ ("provided", Js.Num (Js.Fin 101));
                                 ("maximum", Js.Num (Js.Fin 100)) ]))).
Proof. reflexivity. Qed.

Lemma C3_validate_check_witness :
  validate client_k1 (Js.Str "a@b.com") (mock (FetchResolves response_200))
  = makeRequest client_k1 GET "/api/validate" (email_params "a@b.com")
      (mock (FetchResolves response_200))
  /\ issued (snd (validate client_k1 (Js.Str "a@b.com")
                    (mock (FetchResolves response_200))))
     = issued (mock (FetchResolves response_200))
       ++ [request client_k1 GET "/api/validate" (email_params "a@b.com")]
  /\ req_query (request client_k1 GET "/api/validate" (email_params "a@b.com"))
     = Some [("email", "a@b.com")].
Proof.
  apply (proj2 (C3_validate_check client_k1 (mock (FetchResolves response_200))
                  (Js.Str "a@b.com"))
           "a@b.com" eq_refl).
  discriminate.
Defined.

(** ** Construction *)

Lemma replace_trailing_slash_slash (s : string) :
  replace_trailing_slash (s ++ "/") = s.
Proof.
  induction s as [| c s IH]; [reflexivity |].
  change (String c s ++ "/")%string with (String c (s ++ "/")).
  cbn [replace_trailing_slash]. rewrite IH.
  destruct s; reflexivity.
Qed.

Lemma replace_trailing_slash_other (s : string) (c : ascii) :
  c <> "/"%char ->
  replace_trailing_slash (s ++ String c "") = (s ++ String c "")%string.
Proof.
  intros Hc. induction s as [| d s IH].
  - simpl. destruct (Ascii.eqb_spec c "/"); [contradiction | reflexivity].
  - change (String d s ++ String c "")%string with (String d (s ++ String c "")).
    cbn [replace_trailing_slash]. rewrite IH.
    destruct s; reflexivity.
Qed.

(** C8 (as stated) fails: with deadline 0 and endpoint root "/" the client
    is constructed, but its deadline is 30000 rather than the given 0 and
    its endpoint root is the default rather than the stripped "". *)
Lemma C8_resolution_counterexample :
  constructor config_falsy = Returns client_k1
  /\ cfg_timeout config_falsy = Some (Js.Fin 0)
  /\ getTimeout client_k1 = Js.Fin 30000
  /\ replace_trailing_slash "/" = ""
  /\ getBaseUrl client_k1 = "https://verifyforge.com"
  /\ ~ resolved_as_given config_falsy client_k1.
Proof.
  repeat split. intros [Hurl _]. discriminate Hurl.
Qed.

(** C8 (amended).  Construction throws "API key is required" when the
    credential is absent or empty (the constructor is a pure function: it
    has no access to the transport), and otherwise yields a client whose
    endpoint root is the given root with one trailing slash removed when
    that is non-empty and "https://verifyforge.com" when the root is
    unspecified or strips to the empty string, whose deadline is the given
    one when it is truthy (neither 0 nor NaN) and 30000 when it is
    unspecified or falsy, and whose accessors return these two values.
    Removing the trailing slash turns [s/] into [s] and leaves alone a
    string that does not end in a slash. *)
Theorem C8_constructor_resolution (config : VerifyForgeConfig) :
  (cfg_apiKey config = None \/ cfg_apiKey config = Some "" ->
     constructor config = Throws (ThrowError Js.ClsError "Error" "API key is required"))
  /\ (forall key, cfg_apiKey config = Some key -> key <> "" ->
      exists self,
        constructor config = Returns self
        /\ apiKey self = key
        /\ getBaseUrl self = baseUrl self /\ getTimeout self = timeout self
        /\ (cfg_baseUrl config = None -> getBaseUrl self = "https://verifyforge.com")
        /\ (forall b, cfg_baseUrl config = Some b ->
              (replace_trailing_slash b <> "" ->
                 getBaseUrl self = replace_trailing_slash b)
              /\ (replace_trailing_slash b = "" ->
                    getBaseUrl self = "https://verifyforge.com"))
        /\ (cfg_timeout config = None -> getTimeout self = Js.Fin 30000)
        /\ (forall t, cfg_timeout config = Some t ->
              (Js.truthy (Js.Num t) = true -> getTimeout self = t)
              /\ (Js.truthy (Js.Num t) = false -> getTimeout self = Js.Fin 30000)))
  /\ (forall s, replace_trailing_slash (s ++ "/") = s)
  /\ (forall s c, c <> "/"%char ->
        replace_trailing_slash (s ++ String c "") = (s ++ String c "")%string)
  /\ replace_trailing_slash "" = "".
Proof.
  split; [| split; [| split; [| split]]].
  - unfold constructor. intros [-> | ->]; reflexivity.
  - intros key Hkey Hne. unfold constructor. rewrite Hkey.
    destruct (String.eqb_spec key ""); [contradiction |].
    eexists. split; [reflexivity |]. unfold getBaseUrl, getTimeout. simpl.
    split; [reflexivity |]. split; [reflexivity |]. split; [reflexivity |].
    split; [intros ->; reflexivity |].
    split; [intros b ->; split |].
    + intros Hb.
      destruct (String.eqb_spec (replace_trailing_slash b) "");
        [contradiction | reflexivity].
    + intros ->. reflexivity.
    + split; [intros ->; reflexivity |].
      intros t ->. split; intros ->; reflexivity.
  - exact replace_trailing_slash_slash.
  - exact replace_trailing_slash_other.
  - reflexivity.
Qed.

Lemma C8_constructor_resolution_witness :
  exists self,
    constructor config_custom = Returns self
    /\ getBaseUrl self = "https://custom-domain.com"
    /\ getTimeout self = Js.Fin 60000.
Proof.
  destruct (proj1 (proj2 (C8_constructor_resolution config_custom))
              "k1" eq_refl ltac:(discriminate))
    as (self & Hnew & _ & _ & _ & _ & Hurl & _ & Htime).
  exists self. split; [exact Hnew |]. split.
  - exact (proj1 (Hurl _ eq_refl) ltac:(discriminate)).
  - exact (proj1 (Htime _ eq_refl) eq_refl).
Defined.

(** C10.  A falsy configuration value counts as unspecified: a deadline of
    0 resolves to 30000 and an endpoint root of "" or "/" resolves to
    "https://verifyforge.com"; so [getTimeout] never returns 0 and
    [getBaseUrl] never returns the empty string. *)
Theorem C10_falsy_config_is_unspecified
    (config : VerifyForgeConfig) (self : VerifyForge)
    (Hnew : constructor config = Returns self) :
  (cfg_timeout config = Some (Js.Fin 0) -> getTimeout self = Js.Fin 30000)
  /\ (cfg_baseUrl config = Some "" \/ cfg_baseUrl config = Some "/" ->
      getBaseUrl self = "https://verifyforge.com")
  /\ getTimeout self <> Js.Fin 0
  /\ getBaseUrl self <> "".
Proof.
  unfold constructor in Hnew.
  destruct (cfg_apiKey config) as [key |]; [| discriminate].
  destruct (String.eqb key ""); [discriminate |].
  injection Hnew as <-. unfold getTimeout, getBaseUrl. simpl.
  repeat split.
  - intros ->. reflexivity.
  - intros [-> | ->]; reflexivity.
  - destruct (cfg_timeout config) as [[z |] |]; simpl; try discriminate.
    destruct (Z.eqb_spec z 0); simpl; [discriminate | congruence].
  - destruct (cfg_baseUrl config) as [b |]; [| discriminate].
    destruct (String.eqb_spec (replace_trailing_slash b) "");
      [discriminate | assumption].
Qed.

Lemma C10_falsy_config_is_unspecified_witness :
  constructor config_falsy = Returns client_k1
  /\ getTimeout client_k1 = Js.Fin 30000
  /\ getBaseUrl client_k1 = "https://verifyforge.com"
  /\ getTimeout client_k1 <> Js.Fin 0
  /\ getBaseUrl client_k1 <> "".
Proof.
  split; [reflexivity |].
  destruct (C10_falsy_config_is_unspecified config_falsy client_k1 eq_refl)
    as (Htime & Hurl & Hnz & Hne).
  split; [exact (Htime eq_refl) |].
  split; [exact (Hurl (or_intror eq_refl)) |].
  split; assumption.
Defined.

(** * Further properties of the executor *)

Section Outcomes.

Variables (self : VerifyForge) (method : Method) (endpoint : string).
Variable params : option (list (string * Js.value)).
Variable w : World.

(** The executor's outcome when the transport rejects. *)
Lemma makeRequest_rejected (x : Thrown) :
  transport w (request self method endpoint params) = FetchRejects x ->
  makeRequest self method endpoint params w
  = makeRequest_catch x (log_request (request self method endpoint params) w).
Proof.
  intros Hfetch.
  unfold makeRequest, try_catch, makeRequest_try, bind, fetch.
  rewrite Hfetch. reflexivity.
Qed.

(** Case analysis on the executor's outcome when the transport resolves
    with [r]: one premise per way through the status dispatch and the
    [catch] clause. *)
Lemma dispatch_cases (r : Response) (P : Completion Js.value -> Prop) :
  transport w (request self method endpoint params) = FetchResolves r ->
  (status r = 401 ->
     P (Throws (ThrowVF (AuthenticationError_new (Js.Str "Invalid API key"))))) ->
  (status r = 402 ->
     P (Throws (ThrowVF (InsufficientCreditsError_new (Js.Str "Insufficient credits"))))) ->
  (status r = 429 ->
     P (Throws (ThrowVF (RateLimitError_new (Js.Str "Rate limit exceeded"))))) ->
  (forall v err dets,
     status r = 400 -> body r = BodyJson v -> nullish v = false ->
     get_prop v "error" = Returns err -> get_prop v "details" = Returns dets ->
     P (Throws (ThrowVF (ValidationError_new
                           (Js.or err (Js.Str "Validation failed")) dets)))) ->
  (500 <= status r ->
     P (Throws (ThrowVF (APIError_new (Js.Str "Internal server error")
                           (Some (status r)))))) ->
  (forall err,
     status r < 500 -> ok r = false ->
     status r <> 400 -> status r <> 401 -> status r <> 402 -> status r <> 429 ->
     P (Throws (ThrowVF (APIError_new (Js.or err (Js.Str "Request failed"))
                           (Some (status r)))))) ->
  (forall v, 200 <= status r <= 299 -> body r = BodyJson v -> P (Returns v)) ->
  (forall why,
     status r = 400 \/ 200 <= status r <= 299 -> body r = BodyMalformed why ->
     P (Throws (ThrowVF (VerifyForgeError_new (Js.Str why) None)))) ->
  (status r < 500 -> status r <> 401 -> status r <> 402 -> status r <> 429 ->
     P (Throws (ThrowVF (NetworkError_new (Js.Str "Network request failed"))))) ->
  P (fst (makeRequest self method endpoint params w)).
Proof.
  intros Hfetch P401 P402 P429 P400 P5xx Pother P2xx Pbase Pnet.
  unfold makeRequest, try_catch, makeRequest_try, bind, fetch.
  rewrite Hfetch.
  destruct (Z.eqb_spec (status r) 401) as [E401 | N401]; [exact (P401 E401) |].
  destruct (Z.eqb_spec (status r) 402) as [E402 | N402]; [exact (P402 E402) |].
  destruct (Z.eqb_spec (status r) 429) as [E429 | N429]; [exact (P429 E429) |].
  destruct (Z.eqb_spec (status r) 400) as [E400 | N400].
  - unfold json.
    destruct (body r) as [v | why | why] eqn:Hbody; simpl.
    + destruct v as [| | b | n | s | l | f]; simpl;
        try (apply Pnet; solve [lia | assumption]);
        try (apply (P400 _ _ _ E400 eq_refl); reflexivity).
      unfold construct.
      destruct (Js.stringifiable
                  (Js.or (Js.lookup "error" f) (Js.Str "Validation failed"))); simpl.
      * apply (P400 _ _ _ E400 eq_refl); reflexivity.
      * apply Pnet; solve [lia | assumption].
    + apply Pbase; [left; exact E400 | reflexivity].
    + apply Pnet; solve [lia | assumption].
  - destruct (Z.leb_spec 500 (status r)) as [H500 | L500]; [exact (P5xx H500) |].
    destruct (ok r) eqn:Hok.
    + assert (H2xx : 200 <= status r <= 299).
      { unfold ok in Hok. apply andb_true_iff in Hok. destruct Hok as [Ha Hb].
        apply Z.leb_le in Ha. apply Z.leb_le in Hb. lia. }
      simpl. unfold json.
      destruct (body r) as [v | why | why] eqn:Hbody; simpl.
      * apply (P2xx v H2xx). reflexivity.
      * apply Pbase; [right; exact H2xx | reflexivity].
      * apply Pnet; solve [lia | assumption].
    + simpl. unfold json, try_catch.
      destruct (body r) as [v | why | why] eqn:Hbody; simpl;
        try (apply Pother; solve [lia | assumption | reflexivity]).
      destruct v as [| | b | n | s | l | f]; simpl;
        try (apply Pnet; solve [lia | assumption]);
        try (apply Pother; solve [lia | assumption | reflexivity]).
      unfold construct.
      destruct (Js.stringifiable
                  (Js.or (Js.lookup "error" f) (Js.Str "Request failed"))); simpl.
      * apply Pother; solve [lia | assumption | reflexivity].
      * apply Pnet; solve [lia | assumption].
Qed.

(** X4.  The executor returns a value only when the transport resolved
    with a response whose status is in 200-299 and whose body parsed to
    that very value; one request was issued. *)
Theorem makeRequest_success_sound (v : Js.value) (w' : World)
    (Hrun : makeRequest self method endpoint params w = (Returns v, w')) :
  exists r,
    transport w (request self method endpoint params) = FetchResolves r
    /\ 200 <= status r <= 299
    /\ body r = BodyJson v
    /\ w' = log_request (request self method endpoint params) w.
Proof.
  pose proof (makeRequest_world self method endpoint params w) as Hw.
  rewrite Hrun in Hw. simpl in Hw.
  destruct (transport w (request self method endpoint params)) as [r | x] eqn:Hfetch.
  - exists r. split; [reflexivity |].
    assert (Hfst : fst (makeRequest self method endpoint params w) = Returns v)
      by (rewrite Hrun; reflexivity).
    revert Hfst.
    apply (dispatch_cases r
             (fun c => c = Returns v ->
                       200 <= status r <= 299 /\ body r = BodyJson v
                       /\ w' = log_request (request self method endpoint params) w));
      try exact Hfetch; intros; try discriminate.
    match goal with H : Returns _ = Returns _ |- _ => injection H as -> end.
    repeat split; solve [lia | assumption].
  - exfalso. rewrite (makeRequest_rejected x Hfetch) in Hrun.
    destruct (makeRequest_catch_classified x
                (log_request (request self method endpoint params) w))
      as [err [Hcatch _]].
    rewrite Hcatch in Hrun. discriminate.
Qed.

(** X5.  The status table read backwards.  When the transport resolved
    with [r] and the executor rejects with [e]: an Authentication,
    InsufficientCredits, RateLimit or Validation error means status 401,
    402, 429 or 400; an API error means a status of 500 or more, or one
    below 500 that is outside 200-299 and is not 400; a status code on the
    error is always the status of the response; and a Network or base
    error never comes from 401, 402, 429 or a status of 500 or more. *)
Theorem rejection_reflects_status (r : Response) (e : VerifyForgeError) (w' : World)
    (Hfetch : transport w (request self method endpoint params) = FetchResolves r)
    (Hrun : makeRequest self method endpoint params w = (Throws (ThrowVF e), w')) :
  (kind e = KAuthenticationError -> status r = 401)
  /\ (kind e = KInsufficientCreditsError -> status r = 402)
  /\ (kind e = KRateLimitError -> status r = 429)
  /\ (kind e = KValidationError -> status r = 400)
  /\ (kind e = KAPIError ->
      500 <= status r
      \/ (status r < 500 /\ (status r < 200 \/ 299 < status r) /\ status r <> 400))
  /\ (forall z, statusCode e = Some z -> z = status r)
  /\ (kind e = KNetworkError \/ kind e = KVerifyForgeError ->
      status r < 500 /\ status r <> 401 /\ status r <> 402 /\ status r <> 429).
Proof.
  assert (Hfst : fst (makeRequest self method endpoint params w) = Throws (ThrowVF e))
    by (rewrite Hrun; reflexivity).
  revert Hfst.
  apply (dispatch_cases r
           (fun c => c = Throws (ThrowVF e) -> _)); try exact Hfetch;
    intros; try discriminate;
    match goal with H : Throws _ = Throws _ |- _ => injection H as <- end;
    simpl; repeat split; intros;
    try discriminate; try lia;
    try (match goal with H : Some _ = Some _ |- _ => injection H as <- end; lia);
    try (match goal with H : _ \/ _ |- _ => destruct H; discriminate end).
  (* what is left: an API error on a status below 500, where the response is not ok *)
  right. split; [assumption |]. split; [| assumption].
  match goal with H : ok r = false |- _ =>
    unfold ok in H; apply andb_false_iff in H;
    destruct H as [H | H]; apply Z.leb_gt in H; lia
  end.
Qed.

(** X6.  When the transport rejects with anything but an error of the
    SDK's own hierarchy, the executor rejects with a Network error or a
    base error, which carries no status code and no details; it is a
    Network error exactly when the rejection is an [Error] named
    [AbortError] or a [TypeError]. *)
Theorem transport_rejection
    (x : Thrown)
    (Hfetch : transport w (request self method endpoint params) = FetchRejects x)
    (Hforeign : forall e0, x <> ThrowVF e0) :
  exists e,
    makeRequest self method endpoint params w
    = (Throws (ThrowVF e), log_request (request self method endpoint params) w)
    /\ (kind e = KNetworkError \/ kind e = KVerifyForgeError)
    /\ statusCode e = None
    /\ details e = Js.Undefined
    /\ (kind e = KNetworkError <->
        exists cls nm msg,
          x = ThrowError cls nm msg /\ (nm = "AbortError" \/ cls = Js.ClsTypeError)).
Proof.
  rewrite (makeRequest_rejected x Hfetch).
  destruct x as [e0 | cls nm msg | v]; simpl.
  - exfalso. apply (Hforeign e0). reflexivity.
  - destruct (String.eqb_spec nm "AbortError") as [-> | Hnm].
    + eexists. split; [reflexivity |]. simpl. repeat split; try (left; reflexivity).
      intros _. exists cls, "AbortError", msg. split; [reflexivity | left; reflexivity].
    + destruct cls; simpl; eexists; (split; [reflexivity |]); simpl;
        repeat split; try (left; reflexivity); try (right; reflexivity);
        try discriminate;
        try (intros _; eexists _, _, _; split; [reflexivity | right; reflexivity]);
        intros (cls' & nm' & msg' & Heq & [Hab | Hty]);
        injection Heq as <- <- <-; solve [contradiction | discriminate].
  - eexists. split; [reflexivity |]. simpl. repeat split; try (right; reflexivity);
      try discriminate.
    intros (cls' & nm' & msg' & Heq & _). discriminate.
Qed.

End Outcomes.

Lemma makeRequest_success_sound_witness :
  exists r,
    transport (mock (FetchResolves response_200))
      (request client_k1 GET "/api/validate" (email_params "a@b.com"))
    = FetchResolves r
    /\ 200 <= status r <= 299
    /\ body r = BodyJson payload_success
    /\ log_request (request client_k1 GET "/api/validate" (email_params "a@b.com"))
         (mock (FetchResolves response_200))
       = log_request (request client_k1 GET "/api/validate" (email_params "a@b.com"))
           (mock (FetchResolves response_200)).
Proof.
  exact (makeRequest_success_sound client_k1 GET "/api/validate"
           (email_params "a@b.com") (mock (FetchResolves response_200))
           payload_success _ eq_refl).
Defined.

Lemma rejection_reflects_status_witness :
  (kind (APIError_new (Js.Str "Request failed") (Some 404)) = KAuthenticationError ->
     status (response_html 404) = 401)
  /\ (kind (APIError_new (Js.Str "Request failed") (Some 404)) = KInsufficientCreditsError ->
     status (response_html 404) = 402)
  /\ (kind (APIError_new (Js.Str "Request failed") (Some 404)) = KRateLimitError ->
     status (response_html 404) = 429)
  /\ (kind (APIError_new (Js.Str "Request failed") (Some 404)) = KValidationError ->
     status (response_html 404) = 400)
  /\ (kind (APIError_new (Js.Str "Request failed") (Some 404)) = KAPIError ->
      500 <= status (response_html 404)
      \/ (status (response_html 404) < 500
          /\ (status (response_html 404) < 200 \/ 299 < status (response_html 404))
          /\ status (response_html 404) <> 400))
  /\ (forall z, statusCode (APIError_new (Js.Str "Request failed") (Some 404)) = Some z ->
      z = status (response_html 404))
  /\ (kind (APIError_new (Js.Str "Request failed") (Some 404)) = KNetworkError
      \/ kind (APIError_new (Js.Str "Request failed") (Some 404)) = KVerifyForgeError ->
      status (response_html 404) < 500 /\ status (response_html 404) <> 401
      /\ status (response_html 404) <> 402 /\ status (response_html 404) <> 429).
Proof.
  exact (rejection_reflects_status client_k1 GET "/api/validate"
           (email_params "a@b.com") (mock (FetchResolves (response_html 404)))
           (response_html 404) (APIError_new (Js.Str "Request failed") (Some 404))
           _ eq_refl eq_refl).
Defined.

Lemma transport_rejection_witness :
  exists e,
    makeRequest client_k1 GET "/api/validate" (email_params "a@b.com")
      (mock (FetchRejects AbortError))
    = (Throws (ThrowVF e),
       log_request (request client_k1 GET "/api/validate" (email_params "a@b.com"))
         (mock (FetchRejects AbortError)))
    /\ (kind e = KNetworkError \/ kind e = KVerifyForgeError)
    /\ statusCode e = None
    /\ details e = Js.Undefined
    /\ (kind e = KNetworkError <->
        exists cls nm msg,
          AbortError = ThrowError cls nm msg
          /\ (nm = "AbortError" \/ cls = Js.ClsTypeError)).
Proof.
  refine (transport_rejection client_k1 GET "/api/validate"
            (email_params "a@b.com") (mock (FetchRejects AbortError))
            AbortError eq_refl _).
  intros e0. discriminate.
Defined.

(** ** What the operations reject with *)

Lemma constructors_consistent (m d : Js.value) (z : Z) :
  consistent (AuthenticationError_new m)
  /\ consistent (RateLimitError_new m)
  /\ consistent (InsufficientCreditsError_new m)
  /\ consistent (ValidationError_new m d)
  /\ consistent (APIError_new m (Some z))
  /\ consistent (APIError_new m None)
  /\ consistent (NetworkError_new m)
  /\ consistent (VerifyForgeError_new m None).
Proof.
  unfold consistent. simpl. repeat split; eexists; reflexivity.
Qed.

(** Closes [consistent e] for [e] built by one of the constructors. *)
Ltac solve_consistent :=
  unfold consistent; simpl; repeat split; try (eexists; reflexivity).

Section Rejections.

Variables (self : VerifyForge) (w : World).
Hypothesis Hforeign : foreign_rejections w.

Lemma makeRequest_rejection_consistent
    (method : Method) (endpoint : string)
    (params : option (list (string * Js.value)))
    (x : Thrown) (w' : World) :
  makeRequest self method endpoint params w = (Throws x, w') ->
  exists e, x = ThrowVF e /\ consistent e.
Proof.
  intros Hrun.
  destruct (transport w (request self method endpoint params)) as [r | y] eqn:Hfetch.
  - assert (Hfst : fst (makeRequest self method endpoint params w) = Throws x)
      by (rewrite Hrun; reflexivity).
    revert Hfst.
    apply (dispatch_cases self method endpoint params w r
             (fun c => c = Throws x -> exists e, x = ThrowVF e /\ consistent e));
      try exact Hfetch; intros; try discriminate;
      match goal with H : Throws _ = Throws _ |- _ => injection H as <- end;
      eexists; (split; [reflexivity |]);
      solve_consistent.
  - rewrite (makeRequest_rejected self method endpoint params w y Hfetch) in Hrun.
    destruct y as [e0 | cls nm msg | v]; simpl in Hrun.
    + exfalso. apply (Hforeign _ _ Hfetch).
    + destruct (String.eqb nm "AbortError");
        [| destruct (Js.instanceof_TypeError cls)];
        injection Hrun as <- _; eexists; (split; [reflexivity |]);
        solve_consistent.
    + injection Hrun as <- _. eexists. split; [reflexivity |].
      solve_consistent.
Qed.

(** X7.  With a transport that never rejects with an error of the SDK's
    own hierarchy, whatever [validate] or [validateBulk] rejects with is
    an error of the hierarchy whose own properties agree with its class:
    [name] is the class name, [errorCode] the class's code, [statusCode]
    is 401, 429, 402 or 400 for the four fixed classes, some number for an
    API error and absent for a Network or base error, and [docsUrl] is the
    default documentation URL. *)
Theorem rejections_are_consistent (arg : Js.value) (x : Thrown) (w' : World)
    (Hrun : validate self arg w = (Throws x, w')
            \/ validateBulk self arg w = (Throws x, w')) :
  exists e,
    x = ThrowVF e
    /\ name e = class_name (kind e)
    /\ errorCode e = class_errorCode (kind e)
    /\ class_statusCode (kind e) (statusCode e)
    /\ docsUrl e = "https://verifyforge.com/api-docs".
Proof.
  change (exists e, x = ThrowVF e /\ consistent e).
  destruct Hrun as [Hrun | Hrun]; revert Hrun.
  - unfold validate.
    destruct (negb (Js.truthy arg) || negb (String.eqb (Js.typeof arg) "string")).
    + intros Hrun. injection Hrun as <- _. eexists. split; [reflexivity |].
      solve_consistent.
    + apply makeRequest_rejection_consistent.
  - unfold validateBulk.
    destruct (negb (Js.isArray arg) || (array_length arg =? 0)).
    + intros Hrun. injection Hrun as <- _. eexists. split; [reflexivity |].
      solve_consistent.
    + destruct (100 <? array_length arg).
      * intros Hrun. injection Hrun as <- _. eexists. split; [reflexivity |].
        solve_consistent.
      * apply makeRequest_rejection_consistent.
Qed.

End Rejections.

Lemma rejections_are_consistent_witness :
  exists e,
    ThrowVF (AuthenticationError_new (Js.Str "Invalid API key")) = ThrowVF e
    /\ name e = class_name (kind e)
    /\ errorCode e = class_errorCode (kind e)
    /\ class_statusCode (kind e) (statusCode e)
    /\ docsUrl e = "https://verifyforge.com/api-docs".
Proof.
  refine (rejections_are_consistent client_k1
            (mock (FetchResolves (response_html 401))) _
            (Js.Str "a@b.com")
            (ThrowVF (AuthenticationError_new (Js.Str "Invalid API key")))
            (log_request (request client_k1 GET "/api/validate" (email_params "a@b.com"))
               (mock (FetchResolves (response_html 401))))
            (or_introl eq_refl)).
  intros req e. discriminate.
Defined.

(** X8.  Whatever the transport does, [validate] and [validateBulk] reject
    with nothing but an error of the SDK's own hierarchy. *)
Theorem operations_reject_in_taxonomy
    (self : VerifyForge) (w : World) (x : Thrown) (w' : World) :
  (forall email,
     validate self email w = (Throws x, w') -> exists e, x = ThrowVF e)
  /\ (forall emails,
     validateBulk self emails w = (Throws x, w') -> exists e, x = ThrowVF e).
Proof.
  split.
  - intros email. unfold validate.
    destruct (negb (Js.truthy email) || negb (String.eqb (Js.typeof email) "string")).
    + intros Hrun. injection Hrun as <- _. eexists. reflexivity.
    + apply makeRequest_rejects_in_taxonomy.
  - intros emails. unfold validateBulk.
    destruct (negb (Js.isArray emails) || (array_length emails =? 0)).
    + intros Hrun. injection Hrun as <- _. eexists. reflexivity.
    + destruct (100 <? array_length emails).
      * intros Hrun. injection Hrun as <- _. eexists. reflexivity.
      * apply makeRequest_rejects_in_taxonomy.
Qed.

Lemma operations_reject_in_taxonomy_witness :
  exists e,
    ThrowVF (ValidationError_new (Js.Str "Email must be a non-empty string") Js.Undefined)
    = ThrowVF e.
Proof.
  exact (proj1 (operations_reject_in_taxonomy client_k1 (mock (FetchRejects AbortError))
                  (ThrowVF (ValidationError_new
                              (Js.Str "Email must be a non-empty string") Js.Undefined))
                  (mock (FetchRejects AbortError)))
           (Js.Str "") eq_refl).
Defined.

(** ** The string form of an error *)

Lemma append_empty_r (s : string) : (s ++ "")%string = s.
Proof. induction s as [| c s IH]; [reflexivity |]. simpl. rewrite IH. reflexivity. Qed.

Lemma string_append_assoc (a b c : string) :
  ((a ++ b) ++ c)%string = (a ++ (b ++ c))%string.
Proof. induction a as [| d a IH]; [reflexivity |]. simpl. rewrite IH. reflexivity. Qed.

(** X9.  [toString] is the class name and the message followed by up to
    four parts, each introduced by " | ": the status code when it is
    present and not 0, the error code when it is a non-empty string, the
    details when they have at least one key, and the documentation URL
    when it is a non-empty string, in this order. *)
Theorem toString_segments (stringify : Js.value -> string) (e : VerifyForgeError) :
  toString stringify e
  = ((name e ++ ": " ++ message e)
     ++ segment (match statusCode e with Some z => negb (z =? 0)%Z | None => false end)
          "Status Code"
          (match statusCode e with
           | Some z => Js.number_to_string (Js.Fin z)
           | None => ""
           end)
     ++ segment (match errorCode e with
                 | Some c => negb (String.eqb c "")
                 | None => false
                 end)
          "Error Code" (match errorCode e with Some c => c | None => "" end)
     ++ segment (has_keys (details e)) "Details" (stringify (details e))
     ++ segment (negb (String.eqb (docsUrl e) "")) "Docs" (docsUrl e))%string.
Proof.
  unfold toString, segment. simpl Js.truthy.
  destruct (statusCode e) as [z |]; [destruct (negb (z =? 0)) |];
    (destruct (errorCode e) as [c |]; [destruct (negb (String.eqb c "")) |]);
    destruct (has_keys (details e));
    destruct (negb (String.eqb (docsUrl e) ""));
    cbn [List.app String.concat];
    rewrite ?append_empty_r; reflexivity.
Qed.

(** X10.  The string forms of the errors the client raises.  A Network
    error and a base error show no status code; an API error shows its
    status code unless it is 0; a Validation error shows its details only
    when they have at least one key; all of them end with the default
    documentation URL. *)
Theorem toString_of_raised_errors
    (stringify : Js.value -> string) (m : string) (z : Z) (d : Js.value) :
  toString stringify (NetworkError_new (Js.Str m))
  = ("NetworkError: " ++ m
     ++ " | Error Code: NETWORK_ERROR | Docs: https://verifyforge.com/api-docs")%string
  /\ toString stringify (VerifyForgeError_new (Js.Str m) None)
     = ("VerifyForgeError: " ++ m ++ " | Docs: https://verifyforge.com/api-docs")%string
  /\ (z <> 0 ->
      toString stringify (APIError_new (Js.Str m) (Some z))
      = ("APIError: " ++ m ++ " | Status Code: " ++ Js.number_to_string (Js.Fin z)
         ++ " | Error Code: API_ERROR | Docs: https://verifyforge.com/api-docs")%string)
  /\ toString stringify (APIError_new (Js.Str m) (Some 0))
     = ("APIError: " ++ m
        ++ " | Error Code: API_ERROR | Docs: https://verifyforge.com/api-docs")%string
  /\ (has_keys d = true ->
      toString stringify (ValidationError_new (Js.Str m) d)
      = ("ValidationError: " ++ m
         ++ " | Status Code: 400 | Error Code: VALIDATION_ERROR | Details: "
         ++ stringify d ++ " | Docs: https://verifyforge.com/api-docs")%string)
  /\ (has_keys d = false ->
      toString stringify (ValidationError_new (Js.Str m) d)
      = ("ValidationError: " ++ m
         ++ " | Status Code: 400 | Error Code: VALIDATION_ERROR"
         ++ " | Docs: https://verifyforge.com/api-docs")%string).
Proof.
  repeat split.
  - intros Hz. unfold toString. simpl.
    destruct (Z.eqb_spec z 0); [contradiction | reflexivity].
  - intros Hd. unfold toString. simpl. rewrite Hd. reflexivity.
  - intros Hd. unfold toString. simpl. rewrite Hd. reflexivity.
Qed.

Lemma toString_of_raised_errors_witness :
  toString (fun _ => "[1]") (APIError_new (Js.Str "Request failed") (Some 404))
  = "APIError: Request failed | Status Code: 404 | Error Code: API_ERROR | Docs: https://verifyforge.com/api-docs"
  /\ toString (fun _ => "[1]")
       (ValidationError_new (Js.Str "bad email") (Js.Arr [Js.Num (Js.Fin 1)]))
     = "ValidationError: bad email | Status Code: 400 | Error Code: VALIDATION_ERROR | Details: [1] | Docs: https://verifyforge.com/api-docs"
  /\ toString (fun _ => "[1]")
       (ValidationError_new (Js.Str "Email must be a non-empty string") Js.Undefined)
     = "ValidationError: Email must be a non-empty string | Status Code: 400 | Error Code: VALIDATION_ERROR | Docs: https://verifyforge.com/api-docs".
Proof.
  split; [| split].
  - exact (proj1 (proj2 (proj2 (toString_of_raised_errors (fun _ => "[1]")
                                  "Request failed" 404 Js.Undefined)))
             ltac:(discriminate)).
  - exact (proj1 (proj2 (proj2 (proj2 (proj2
             (toString_of_raised_errors (fun _ => "[1]") "bad email" 0
                (Js.Arr [Js.Num (Js.Fin 1)]))))))
             eq_refl).
  - exact (proj2 (proj2 (proj2 (proj2 (proj2
             (toString_of_raised_errors (fun _ => "[1]")
                "Email must be a non-empty string" 0 Js.Undefined)))))
             eq_refl).
Defined.

(** ** The query of a GET request *)

(** X11.  The entries appended to the [URLSearchParams] are the
    parameters whose value is neither [undefined] nor [null], in their
    order, each with the string form of its value: a pair is in the query
    exactly when it comes from such a parameter, and the query is never
    longer than the parameter list. *)
Theorem searchParams_spec (params : list (string * Js.value)) :
  searchParams params
  = List.map (fun kv => (fst kv, Js.to_string (snd kv)))
      (List.filter (fun kv => negb (nullish (snd kv))) params)
  /\ (List.length (searchParams params) <= List.length params)%nat
  /\ (forall k s,
        List.In (k, s) (searchParams params)
        <-> exists v, List.In (k, v) params /\ nullish v = false
                      /\ s = Js.to_string v).
Proof.
  assert (Heq : searchParams params
                = List.map (fun kv => (fst kv, Js.to_string (snd kv)))
                    (List.filter (fun kv => negb (nullish (snd kv))) params)).
  { induction params as [| [k v] rest IH]; [reflexivity |].
    destruct v; simpl; rewrite IH; reflexivity. }
  split; [exact Heq |]. split.
  - rewrite Heq, List.length_map. apply List.filter_length_le.
  - intros k s. rewrite Heq, List.in_map_iff. split.
    + intros [[k' v] [Hpair Hin]]. apply List.filter_In in Hin.
      destruct Hin as [Hin Hnn]. simpl in Hpair, Hnn.
      injection Hpair as <- <-. exists v.
      split; [exact Hin |]. split; [| reflexivity].
      destruct (nullish v); [discriminate | reflexivity].
    + intros [v [Hin [Hnn ->]]]. exists (k, v). split; [reflexivity |].
      apply List.filter_In. split; [exact Hin |]. simpl. rewrite Hnn. reflexivity.
Qed.

(** ** What the constructors guarantee *)

(** [parts.join(sep)] after a push onto a non-empty array. *)
Lemma join_snoc (sep : string) (parts : list string) (x : string) :
  parts <> [] ->
  String.concat sep (parts ++ [x]) = (String.concat sep parts ++ sep ++ x)%string.
Proof.
  induction parts as [| a rest IH]; [contradiction |]. intros _.
  destruct rest as [| b rest]; [reflexivity |].
  change (String.concat sep ((a :: b :: rest) ++ [x]))
    with (a ++ sep ++ String.concat sep ((b :: rest) ++ [x]))%string.
  rewrite IH by discriminate.
  change (String.concat sep (a :: b :: rest))
    with (a ++ sep ++ String.concat sep (b :: rest))%string.
  rewrite !string_append_assoc. reflexivity.
Qed.

(** X15.  An error built by any constructor has a non-empty documentation
    URL: the base constructor replaces a missing or empty one by the
    default, and the six subclasses always get the default.  The string
    form of an error with a non-empty documentation URL ends with
    " | Docs: " and that URL. *)
Theorem constructed_docsUrl
    (stringify : Js.value -> string) (m d : Js.value)
    (options : option ErrorOptions) (code : option Z) :
  docsUrl (VerifyForgeError_new m options) <> ""
  /\ (forall u, (exists o, options = Some o /\ opt_docsUrl o = Some u) -> u <> "" ->
      docsUrl (VerifyForgeError_new m options) = u)
  /\ docsUrl (AuthenticationError_new m) = "https://verifyforge.com/api-docs"
  /\ docsUrl (RateLimitError_new m) = "https://verifyforge.com/api-docs"
  /\ docsUrl (InsufficientCreditsError_new m) = "https://verifyforge.com/api-docs"
  /\ docsUrl (ValidationError_new m d) = "https://verifyforge.com/api-docs"
  /\ docsUrl (APIError_new m code) = "https://verifyforge.com/api-docs"
  /\ docsUrl (NetworkError_new m) = "https://verifyforge.com/api-docs"
  /\ (forall e, docsUrl e <> "" ->
      exists front,
        toString stringify e = (front ++ " | Docs: " ++ docsUrl e)%string).
Proof.
  split; [| split; [| repeat split]].
  - unfold VerifyForgeError_new. simpl.
    destruct options as [[sc ec dt [u |]] |]; try discriminate.
    destruct (String.eqb_spec u ""); [discriminate | assumption].
  - intros u (o & -> & Hu) Hne. unfold VerifyForgeError_new. simpl.
    destruct o as [sc ec dt du]. simpl in Hu. subst du.
    destruct (String.eqb_spec u ""); [contradiction | reflexivity].
  - intros e Hne. unfold toString. cbv zeta. simpl Js.truthy.
    destruct (String.eqb_spec (docsUrl e) ""); [contradiction |]. simpl negb. cbv iota.
    rewrite join_snoc; [eexists; reflexivity |].
    destruct (statusCode e) as [z |]; [destruct (negb (z =? 0)) |];
      (destruct (errorCode e) as [c |]; [destruct (negb (String.eqb c "")) |]);
      destruct (has_keys (details e)); discriminate.
Qed.

Lemma constructed_docsUrl_witness :
  exists front,
    toString (fun _ => "[1]") (NetworkError_new (Js.Str "Request timed out"))
    = (front ++ " | Docs: " ++ docsUrl (NetworkError_new (Js.Str "Request timed out")))%string.
Proof.
  exact (proj2 (proj2 (proj2 (proj2 (proj2 (proj2 (proj2 (proj2
           (constructed_docsUrl (fun _ => "[1]") Js.Undefined Js.Undefined None None))))))))
           (NetworkError_new (Js.Str "Request timed out")) ltac:(discriminate)).
Defined.

(** ** The resolved endpoint root *)

Lemma last_char_append_char (s : string) (c : ascii) :
  last_char (s ++ String c "") = Some c.
Proof.
  induction s as [| d s IH]; [reflexivity |].
  change (String d s ++ String c "")%string with (String d (s ++ String c "")).
  cbn [last_char]. rewrite IH. destruct s; reflexivity.
Qed.

(** Every string is empty or ends with a last character. *)
Lemma string_snoc (s : string) :
  s = "" \/ exists t c, s = (t ++ String c "")%string.
Proof.
  induction s as [| d s IH]; [left; reflexivity |].
  right. destruct IH as [-> | (t & c & ->)].
  - exists "", d. reflexivity.
  - exists (String d t), c. reflexivity.
Qed.

Lemma replace_trailing_slash_fixed (s : string) :
  last_char s <> Some "/"%char -> replace_trailing_slash s = s.
Proof.
  intros Hlast. destruct (string_snoc s) as [-> | (t & c & ->)]; [reflexivity |].
  apply replace_trailing_slash_other.
  intros ->. apply Hlast. apply last_char_append_char.
Qed.

(** What every constructed client satisfies. *)
Lemma constructor_invariants (config : VerifyForgeConfig) (self : VerifyForge) :
  constructor config = Returns self ->
  apiKey self <> "" /\ baseUrl self <> "" /\ Js.truthy (Js.Num (timeout self)) = true.
Proof.
  unfold constructor. intros Hnew.
  destruct (cfg_apiKey config) as [key |]; [| discriminate].
  destruct (String.eqb_spec key "") as [| Hkey]; [discriminate |].
  injection Hnew as <-. simpl. split; [exact Hkey |]. split.
  - destruct (cfg_baseUrl config) as [b |]; [| discriminate].
    destruct (String.eqb_spec (replace_trailing_slash b) ""); [discriminate | assumption].
  - destruct (cfg_timeout config) as [t |]; [| reflexivity].
    destruct t as [z |]; simpl; [| reflexivity].
    destruct (z =? 0) eqn:Hz; simpl; [reflexivity | rewrite Hz; reflexivity].
Qed.

Lemma constructor_config_of (self : VerifyForge) :
  apiKey self <> "" -> baseUrl self <> "" ->
  Js.truthy (Js.Num (timeout self)) = true ->
  replace_trailing_slash (baseUrl self) = baseUrl self ->
  constructor (config_of self) = Returns self.
Proof.
  intros Hkey Hroot Htime Hfix. destruct self as [key root time].
  unfold constructor, config_of, getBaseUrl, getTimeout. simpl in *.
  destruct (String.eqb_spec key ""); [contradiction |].
  rewrite Hfix, Htime.
  destruct (String.eqb_spec root ""); [contradiction | reflexivity].
Qed.

Section Resolution.

Variables (config : VerifyForgeConfig) (self : VerifyForge).
Hypothesis Hnew : constructor config = Returns self.
Hypothesis Hgiven : forall b t, cfg_baseUrl config = Some b -> b <> (t ++ "//")%string.

Lemma resolved_root_last_char : last_char (getBaseUrl self) <> Some "/"%char.
Proof.
  unfold constructor in Hnew.
  destruct (cfg_apiKey config) as [key |]; [| discriminate].
  destruct (String.eqb key ""); [discriminate |].
  injection Hnew as <-. unfold getBaseUrl. simpl.
  destruct (cfg_baseUrl config) as [b |] eqn:Hb; [| discriminate].
  destruct (String.eqb_spec (replace_trailing_slash b) "") as [Hempty | Hne];
    [discriminate |].
  destruct (string_snoc b) as [-> | (t & c & ->)]; [contradiction Hne; reflexivity |].
  destruct (Ascii.eqb_spec c "/") as [-> | Hc].
  - rewrite replace_trailing_slash_slash.
    destruct (string_snoc t) as [-> | (t' & c' & ->)]; [discriminate |].
    rewrite last_char_append_char. intros Heq. injection Heq as ->.
    apply (Hgiven _ t' eq_refl).
    rewrite string_append_assoc. reflexivity.
  - rewrite (replace_trailing_slash_other t c Hc), last_char_append_char.
    congruence.
Qed.

(** X12.  Unless the given endpoint root ends with two slashes, the
    resolved endpoint root does not end with a slash, so joining it with a
    path that starts with a slash yields exactly one slash at the seam;
    and constructing a client again from the resolved values yields the
    same client. *)
Theorem resolved_root_has_no_trailing_slash :
  last_char (getBaseUrl self) <> Some "/"%char
  /\ (forall t, getBaseUrl self <> (t ++ "/")%string)
  /\ constructor (config_of self) = Returns self.
Proof.
  pose proof resolved_root_last_char as Hlast.
  split; [exact Hlast |]. split.
  - intros t Heq. apply Hlast. rewrite Heq. apply last_char_append_char.
  - destruct (constructor_invariants config self Hnew) as (Hkey & Hroot & Htime).
    apply constructor_config_of; try assumption.
    apply replace_trailing_slash_fixed. exact Hlast.
Qed.

End Resolution.

(** A root whose stripped form does not end with a slash does not end
    with two slashes. *)
Lemma not_double_slash (b : string) :
  last_char (replace_trailing_slash b) <> Some "/"%char ->
  forall t, b <> (t ++ "//")%string.
Proof.
  intros Hlast t ->. apply Hlast.
  change "//"%string with ("/" ++ "/")%string.
  rewrite <- string_append_assoc, replace_trailing_slash_slash.
  apply last_char_append_char.
Qed.

Lemma resolved_root_has_no_trailing_slash_witness :
  last_char (getBaseUrl {| apiKey := "k1"; baseUrl := "https://custom-domain.com";
                           timeout := Js.Fin 60000 |})
  <> Some "/"%char
  /\ (forall t,
        getBaseUrl {| apiKey := "k1"; baseUrl := "https://custom-domain.com";
                      timeout := Js.Fin 60000 |}
        <> (t ++ "/")%string)
  /\ constructor (config_of {| apiKey := "k1"; baseUrl := "https://custom-domain.com";
                               timeout := Js.Fin 60000 |})
     = Returns {| apiKey := "k1"; baseUrl := "https://custom-domain.com";
                  timeout := Js.Fin 60000 |}.
Proof.
  refine (resolved_root_has_no_trailing_slash config_custom
            {| apiKey := "k1"; baseUrl := "https://custom-domain.com";
               timeout := Js.Fin 60000 |} eq_refl _).
  intros b t Hb. injection Hb as <-.
  apply not_double_slash. simpl. discriminate.
Defined.

(** ** The requests of the two operations *)

Section Wire.

Variables (config : VerifyForgeConfig) (self : VerifyForge) (key : string).
Hypothesis Hnew : constructor config = Returns self.
Hypothesis Hkey : cfg_apiKey config = Some key.
Variable w : World.

Lemma constructed_apiKey : apiKey self = key.
Proof.
  unfold constructor in Hnew. rewrite Hkey in Hnew.
  destruct (String.eqb key ""); [discriminate |].
  injection Hnew as <-. reflexivity.
Qed.

(** X13.  On a client constructed from a configuration with credential
    [key], [validate] with a non-empty string issues exactly one request:
    a GET to the resolved endpoint root followed by [/api/validate], with
    the single query entry [email], the four fixed headers with [key] as
    [X-API-Key], no body, and the resolved deadline on its signal. *)
Theorem validate_wire (s : string) (Hs : s <> "") :
  issued (snd (validate self (Js.Str s) w))
  = issued w
    ++ [ {| req_url := (getBaseUrl self ++ "/api/validate")%string;
            req_query := Some [("email", s)];
            req_method := GET;
            req_headers :=
              [ ("X-API-Key", key);
                ("Content-Type", "application/json");
                ("Accept", "application/json");
                ("User-Agent", "VerifyForge-TypeScript-SDK/1.0.0") ];
            req_body := None;
            req_signal := getTimeout self |} ].
Proof.
  unfold validate. simpl.
  destruct (String.eqb_spec s ""); [contradiction |]. simpl.
  rewrite makeRequest_world. unfold log_request, request. simpl.
  rewrite constructed_apiKey. reflexivity.
Qed.

(** X14.  On a client constructed from a configuration with credential
    [key], [validateBulk] with an array of 1 to 100 elements issues exactly
    one request: a POST to the resolved endpoint root followed by
    [/api/validate/bulk], with no query and the body [{emails: [...]}]
    holding the elements as given (same order, duplicates kept, no element
    inspected), the four fixed headers and the resolved deadline. *)
Theorem validateBulk_wire (elems : list Js.value)
    (Hlen : (1 <= List.length elems <= 100)%nat) :
  issued (snd (validateBulk self (Js.Arr elems) w))
  = issued w
    ++ [ {| req_url := (getBaseUrl self ++ "/api/validate/bulk")%string;
            req_query := None;
            req_method := POST;
            req_headers :=
              [ ("X-API-Key", key);
                ("Content-Type", "application/json");
                ("Accept", "application/json");
                ("User-Agent", "VerifyForge-TypeScript-SDK/1.0.0") ];
            req_body := Some (Js.Obj [("emails", Js.Arr elems)]);
            req_signal := getTimeout self |} ].
Proof.
  unfold validateBulk. simpl.
  replace (Z.of_nat (List.length elems) =? 0) with false
    by (symmetry; apply Z.eqb_neq; lia).
  replace (100 <? Z.of_nat (List.length elems)) with false
    by (symmetry; apply Z.ltb_ge; lia).
  simpl. rewrite makeRequest_world. unfold log_request, request. simpl.
  rewrite constructed_apiKey. reflexivity.
Qed.

End Wire.

Lemma validate_wire_witness :
  issued (snd (validate client_k1 (Js.Str "a@b.com") (mock (FetchResolves response_200))))
  = issued (mock (FetchResolves response_200))
    ++ [ {| req_url := (getBaseUrl client_k1 ++ "/api/validate")%string;
            req_query := Some [("email", "a@b.com")];
            req_method := GET;
            req_headers :=
              [ ("X-API-Key", "k1");
                ("Content-Type", "application/json");
                ("Accept", "application/json");
                ("User-Agent", "VerifyForge-TypeScript-SDK/1.0.0") ];
            req_body := None;
            req_signal := getTimeout client_k1 |} ].
Proof.
  exact (validate_wire config_falsy client_k1 "k1" eq_refl eq_refl
           (mock (FetchResolves response_200)) "a@b.com" ltac:(discriminate)).
Defined.

Lemma validateBulk_wire_witness :
  issued (snd (validateBulk client_k1
                 (Js.Arr [Js.Str "a@b.com"; Js.Str "a@b.com"])
                 (mock (FetchResolves response_200))))
  = issued (mock (FetchResolves response_200))
    ++ [ {| req_url := (getBaseUrl client_k1 ++ "/api/validate/bulk")%string;
            req_query := None;
            req_method := POST;
            req_headers :=
              [ ("X-API-Key", "k1");
                ("Content-Type", "application/json");
                ("Accept", "application/json");
                ("User-Agent", "VerifyForge-TypeScript-SDK/1.0.0") ];
            req_body := Some (Js.Obj [("emails",
                                       Js.Arr [Js.Str "a@b.com"; Js.Str "a@b.com"])]);
            req_signal := getTimeout client_k1 |} ].
Proof.
  exact (validateBulk_wire config_falsy client_k1 "k1" eq_refl eq_refl
           (mock (FetchResolves response_200))
           [Js.Str "a@b.com"; Js.Str "a@b.com"] ltac:(simpl; lia)).
Defined.
